(** * SCL mask preprocessing (satio_pc/preprocessing/clouds.py)

    A shallow embedding of [preprocess_scl] and of the [SCLMask]
    container, with the properties of the derived validity mask and of
    the auxiliary statistics.

    - Arrays are nested lists in row-major order (time, then band, then
      y, then x).  A dask array is the value it computes to; chunks are
      not represented.
    - Labeled arrays carry their coordinates and attributes next to the
      values.
    - Python exceptions are values of an error type, threaded through
      with a bind, in the order in which the source evaluates.
    - Floating-point numbers are IEEE 754 binary32 and binary64 values in
      the [spec_float] representation of the standard library, with
      round-to-nearest-even division and conversions.
    - Radii are natural numbers of pixels, or absent.
    - The [print] of line 175 is left out. *)

From Stdlib Require Import String ZArith List Bool Lia PeanoNat Permutation.
From Stdlib Require Import Floats.SpecFloat.
Import ListNotations.

Set Implicit Arguments.

(* ================================================================== *)
(** ** Exceptions *)

Inductive exn : Type :=
| TypeError
| ValueError
| KeyError
| IndexError.

Inductive result (A : Type) : Type :=
| Ok (a : A)
| Raise (e : exn).

Arguments Ok {A} a.
Arguments Raise {A} e.

Definition bind {A B : Type} (r : result A) (k : A -> result B) : result B :=
  match r with
  | Ok a => k a
  | Raise e => Raise e
  end.

Notation "x <- e ;; k" := (bind e (fun x => k))
  (at level 61, e at next level, right associativity).

(* ================================================================== *)
(** ** Floating point *)

Definition float : Type := spec_float.

Definition nan : float := S754_nan.
Definition fzero : float := S754_zero false.

(** Integer to binary32 ([astype(np.float32)] on an integer array). *)
Definition f32_of_Z (n : Z) : float := binary_normalize 24 128 n 0 false.

(** Integer to binary64 (the promotion of an int64 operand of [/]). *)
Definition f64_of_Z (n : Z) : float := binary_normalize 53 1024 n 0 false.

(** binary32 to binary64: exact, the mantissa is re-aligned. *)
Definition f64_of_f32 (f : float) : float :=
  match f with
  | S754_finite s m e => binary_round 53 1024 s m e
  | _ => f
  end.

(** binary64 to binary32 ([astype(np.float32)] on a float64 array). *)
Definition f32_of_f64 (f : float) : float :=
  match f with
  | S754_finite s m e => binary_round 24 128 s m e
  | _ => f
  end.

Definition f64_div (a b : float) : float := SFdiv 53 1024 a b.

(** [a > b]; False as soon as one side is NaN. *)
Definition f_gt (a b : float) : bool := SFltb b a.

(** [n / o] for an int64 count [n] and a float32 [o]: both operands are
    promoted to float64. *)
Definition int_div_f32 (n : Z) (o : float) : float :=
  f64_div (f64_of_Z n) (f64_of_f32 o).

(* ================================================================== *)
(** ** Arrays *)

Definition plane (A : Type) : Type := list (list A).      (* (y, x) *)
Definition cube (A : Type) : Type := list (plane A).      (* (time, y, x) *)
Definition hyper (A : Type) : Type := list (cube A).      (* (time, band, y, x) *)

Inductive ndarray (A : Type) : Type :=
| Nd2 (p : plane A)
| Nd3 (c : cube A)
| Nd4 (h : hyper A).

Definition ndim {A : Type} (a : ndarray A) : nat :=
  match a with
  | Nd2 _ => 2
  | Nd3 _ => 3
  | Nd4 _ => 4
  end.

Definition is_planeb {A : Type} (Y X : nat) (p : plane A) : bool :=
  (length p =? Y) && forallb (fun r => length r =? X) p.

Definition is_cubeb {A : Type} (T Y X : nat) (c : cube A) : bool :=
  (length c =? T) && forallb (is_planeb Y X) c.

Definition is_hyperb {A : Type} (T B Y X : nat) (h : hyper A) : bool :=
  (length h =? T) && forallb (is_cubeb B Y X) h.

Definition get2 {A : Type} (p : plane A) (y x : nat) : option A :=
  match nth_error p y with
  | Some r => nth_error r x
  | None => None
  end.

Definition get3 {A : Type} (c : cube A) (t y x : nat) : option A :=
  match nth_error c t with
  | Some p => get2 p y x
  | None => None
  end.

Definition get4 {A : Type} (h : hyper A) (t b y x : nat) : option A :=
  match nth_error h t with
  | Some c => get3 c b y x
  | None => None
  end.

(** Elementwise operations.  Every binary operation of [preprocess_scl]
    combines arrays of one shape, the shape of the SCL cube. *)
Definition map2 {A B : Type} (f : A -> B) (p : plane A) : plane B :=
  map (map f) p.

Definition map3 {A B : Type} (f : A -> B) (c : cube A) : cube B :=
  map (map2 f) c.

Fixpoint zip_with {A B C : Type} (f : A -> B -> C)
         (l1 : list A) (l2 : list B) : list C :=
  match l1, l2 with
  | a :: l1', b :: l2' => f a b :: zip_with f l1' l2'
  | _, _ => []
  end.

Definition zip_with2 {A B C : Type} (f : A -> B -> C)
           (p : plane A) (q : plane B) : plane C :=
  zip_with (zip_with f) p q.

Definition zip_with3 {A B C : Type} (f : A -> B -> C)
           (c : cube A) (d : cube B) : cube C :=
  zip_with (zip_with2 f) c d.

Fixpoint mapi_from {A B : Type} (f : nat -> A -> B) (i : nat)
         (l : list A) : list B :=
  match l with
  | [] => []
  | a :: l' => f i a :: mapi_from f (S i) l'
  end.

Definition mapi {A B : Type} (f : nat -> A -> B) (l : list A) : list B :=
  mapi_from f 0 l.

Definition mapi2 {A B : Type} (f : nat -> nat -> A -> B)
           (p : plane A) : plane B :=
  mapi (fun y r => mapi (fun x a => f y x a) r) p.

(** [a.sum(axis=0)] on a boolean array of shape (T, Y, X): an integer
    array of shape (Y, X). *)
Definition zeros2 (Y X : nat) : plane Z := repeat (repeat 0%Z X) Y.

Definition sum_axis0 (Y X : nat) (c : cube bool) : plane Z :=
  fold_left (fun acc p => zip_with2 Z.add acc (map2 Z.b2z p)) c (zeros2 Y X).

(** [da.isin(a, values)]. *)
Definition isin (values : list Z) (c : cube Z) : cube bool :=
  map3 (fun v => existsb (Z.eqb v) values) c.

(** [da.broadcast_to(p, (T, Y, X))] for [p] of shape (Y, X). *)
Definition broadcast_to {A : Type} (p : plane A) (T : nat) : cube A :=
  repeat p T.

(** [da.stack(planes)]: a new leading axis; an empty sequence is refused. *)
Definition da_stack {A : Type} (l : list (plane A)) : result (cube A) :=
  match l with
  | [] => Raise ValueError
  | _ => Ok l
  end.

(** [da.concatenate(planes, axis=0)]: the arrays are joined along their
    first existing axis, the rows; the result has as many dimensions as
    each operand. *)
Definition da_concatenate {A : Type} (l : list (plane A)) : result (plane A) :=
  match l with
  | [] => Raise ValueError
  | _ => Ok (concat l)
  end.

(** The time series of one pixel. *)
Definition pixel_series {A : Type} (d : A) (c : cube A) (y x : nat) : list A :=
  map (fun p => nth x (nth y p []) d) c.

Definition count_true (l : list bool) : Z :=
  fold_right (fun b n => (Z.b2z b + n)%Z) 0%Z l.

(* ================================================================== *)
(** ** Morphology primitives

    [skimage.morphology.footprints.disk] and the binary erosion and
    dilation of [dask_image.ndmorph] (border value 0, origin at the centre
    of the footprint), on one 2D plane.  Radii are pixel counts. *)

Definition disk (radius : nat) : plane bool :=
  let r := Z.of_nat radius in
  let L := map (fun k => (Z.of_nat k - r)%Z) (seq 0 (2 * radius + 1)) in
  map (fun Y => map (fun X => (X * X + Y * Y <=? r * r)%Z) L) L.

(** [footprints.disk(r)] on an optional radius: [disk(None)] negates
    [None] and raises. *)
Definition footprints_disk (radius : option nat) : result (plane bool) :=
  match radius with
  | Some r => Ok (disk r)
  | None => Raise TypeError
  end.

(** The offsets, relative to the centre, of the cells set in a footprint. *)
Definition footprint_offsets (fp : plane bool) : list (Z * Z) :=
  let cy := Z.of_nat (length fp / 2) in
  concat (mapi (fun i row =>
    let cx := Z.of_nat (length row / 2) in
    concat (mapi (fun j (b : bool) =>
      if b then [((Z.of_nat i - cy)%Z, (Z.of_nat j - cx)%Z)] else []) row)) fp).

(** The pixel at a signed position; outside the plane, the border value. *)
Definition pixel_or_border (image : plane bool) (y x : Z) : bool :=
  if ((0 <=? y) && (0 <=? x))%Z then
    match get2 image (Z.to_nat y) (Z.to_nat x) with
    | Some b => b
    | None => false
    end
  else false.

Definition binary_erosion (image structure : plane bool) : plane bool :=
  mapi2 (fun y x (_ : bool) =>
    forallb (fun o => pixel_or_border image (Z.of_nat y + fst o) (Z.of_nat x + snd o))
            (footprint_offsets structure)) image.

Definition binary_dilation (image structure : plane bool) : plane bool :=
  mapi2 (fun y x (_ : bool) =>
    existsb (fun o => pixel_or_border image (Z.of_nat y - fst o) (Z.of_nat x - snd o))
            (footprint_offsets structure)) image.

(* ================================================================== *)
(** ** Labeled arrays *)

Definition attrs_t : Type := list (string * list float).

(** A DataArray over (time, band, y, x). *)
Record DataArray4 (A : Type) : Type := mkDataArray4 {
  values4 : hyper A;
  time4 : list Z;
  band4 : list string;
  y4 : list float;
  x4 : list float;
  attrs4 : attrs_t
}.

(** A DataArray over (time, y, x) with a scalar band coordinate. *)
Record DataArray3 (A : Type) : Type := mkDataArray3 {
  values3 : cube A;
  time3 : list Z;
  band3 : string;
  y3 : list float;
  x3 : list float;
  attrs3 : attrs_t
}.

Definition shape4 {A : Type} (d : DataArray4 A) : nat * nat * nat * nat :=
  (length (time4 d), length (band4 d), length (y4 d), length (x4 d)).

(** The values agree with the coordinates. *)
Definition well_shaped {A : Type} (d : DataArray4 A) : bool :=
  is_hyperb (length (time4 d)) (length (band4 d))
            (length (y4 d)) (length (x4 d)) (values4 d).

Fixpoint index_of (name : string) (l : list string) : option nat :=
  match l with
  | [] => None
  | s :: l' =>
      if String.eqb name s then Some 0 else option_map S (index_of name l')
  end.

(** [d.sel(band=name)]: the band axis is dropped, its label stays as a
    scalar coordinate.  The labels of the band index are taken to be
    distinct, as the band names of a stack are: the band selected is the
    one of that name. *)
Definition sel_band {A : Type} (d : DataArray4 A) (name : string)
  : result (DataArray3 A) :=
  match index_of name (band4 d) with
  | None => Raise KeyError
  | Some i =>
      Ok (mkDataArray3 (map (fun c => nth i c []) (values4 d))
                       (time4 d) name (y4 d) (x4 d) (attrs4 d))
  end.

(** [d.copy(data=a)]: [a] must have the shape of [d]. *)
Definition copy_data {A B : Type} (d : DataArray3 A) (a : cube B)
  : result (DataArray3 B) :=
  if is_cubeb (length (time3 d)) (length (y3 d)) (length (x3 d)) a
  then Ok (mkDataArray3 a (time3 d) (band3 d) (y3 d) (x3 d) (attrs3 d))
  else Raise ValueError.

(** [d.assign_coords(band=name)]. *)
Definition assign_coords_band {A : Type} (d : DataArray3 A) (name : string)
  : DataArray3 A :=
  mkDataArray3 (values3 d) (time3 d) name (y3 d) (x3 d) (attrs3 d).

(** [d.expand_dims('band', axis=1)]. *)
Definition expand_dims_band {A : Type} (d : DataArray3 A) : DataArray4 A :=
  mkDataArray4 (map (fun p => [p]) (values3 d))
               (time3 d) [band3 d] (y3 d) (x3 d) (attrs3 d).

(** [xr.DataArray(data, dims=dims, coords=..., attrs=attrs)]: the number
    of dimension names must be the number of dimensions of the data, and
    every coordinate must have the length of its axis.  Only arrays over
    (time, band, y, x) are represented. *)
Definition xr_DataArray {A : Type} (data : ndarray A) (dims : list string)
           (time : list Z) (band : list string) (y x : list float)
           (attrs : attrs_t) : result (DataArray4 A) :=
  if negb (length dims =? ndim data) then Raise ValueError
  else
    match data with
    | Nd4 h =>
        if is_hyperb (length time) (length band) (length y) (length x) h
        then Ok (mkDataArray4 h time band y x attrs)
        else Raise ValueError
    | _ => Raise ValueError
    end.

(* ================================================================== *)
(** ** clouds.py *)

Inductive scl_class : Type :=
| no_data
| saturated_or_defective
| dark_area_pixels
| cloud_shadows
| vegetation
| not_vegetated
| water
| unclassified
| cloud_medium_probability
| cloud_high_probability
| thin_cirrus
| snow.

Definition SCL_LEGEND (c : scl_class) : Z :=
  match c with
  | no_data => 0
  | saturated_or_defective => 1
  | dark_area_pixels => 2
  | cloud_shadows => 3
  | vegetation => 4
  | not_vegetated => 5
  | water => 6
  | unclassified => 7
  | cloud_medium_probability => 8
  | cloud_high_probability => 9
  | thin_cirrus => 10
  | snow => 11
  end%Z.

Definition SCL_MASK_VALUES : list Z := [1; 3; 8; 9; 10; 11]%Z.

Record SCLMask : Type := mkSCLMask {
  mask : DataArray4 bool;
  aux : DataArray4 float
}.

(** A positional argument of a call into the array library: a number, or
    a list of geometries. *)
Inductive py_value (geometry : Type) : Type :=
| PyFloat (f : float)
| PyGeometries (g : list geometry).

Arguments PyFloat {geometry} f.
Arguments PyGeometries {geometry} g.

Section Clip.

(** [SCLMask.clip] calls [rio.clip] of the array library, whose signature
    is [clip(geometries, crs=None, all_touched=False, drop=True,
    invert=False, from_disk=False)]: a clip to geometries.  The type of a
    geometry and the clip to geometries are parameters.  A first argument
    that is a number is refused; the exception depends on the coordinate
    reference system of the array and is a parameter too. *)
Variable geometry : Type.
Variable clip_to_geometries :
  forall A : Type, DataArray4 A -> list geometry -> list (py_value geometry)
                   -> result (DataArray4 A).
Variable not_geometries :
  forall A : Type, DataArray4 A -> list (py_value geometry) -> exn.

(** [d.rio.clip( *args )]: from one to six positional arguments. *)
Definition rio_clip (A : Type) (d : DataArray4 A) (args : list (py_value geometry))
  : result (DataArray4 A) :=
  match args with
  | [] => Raise TypeError
  | PyGeometries g :: options =>
      if length options <=? 5 then clip_to_geometries d g options
      else Raise TypeError
  | PyFloat _ :: options =>
      if length options <=? 5 then Raise (not_geometries d args)
      else Raise TypeError
  end.

(** Lines 55 to 58: [bounds] is unpacked into the positional arguments of
    both calls. *)
Definition clip (self : SCLMask) (bounds : list (py_value geometry)) : result SCLMask :=
  new_mask <- rio_clip (mask self) bounds ;;
  new_aux <- rio_clip (aux self) bounds ;;
  Ok (mkSCLMask new_mask new_aux).

End Clip.

(** The gate of a morphology stage, [(r is not None) | (r > 0)]: [|]
    evaluates both operands, and [None > 0] raises. *)
Definition radius_gate (r : option nat) : result bool :=
  let is_set := match r with Some _ => true | None => false end in
  gt_zero <- match r with
             | Some n => Ok (0 <? n)
             | None => Raise TypeError
             end ;;
  Ok (is_set || gt_zero).

(** The local variables of [preprocess_scl] when it reaches line 161. *)
Record scl_locals : Type := mkLocals {
  l_scl_data : DataArray3 Z;          (* line 120 *)
  l_isin : cube bool;                 (* [mask], line 123 *)
  l_ts_obs : cube bool;               (* line 129 *)
  l_obs : plane float;                (* line 130 *)
  l_invalid_before : plane float;     (* line 133 *)
  l_cover_snow : plane float;
  l_cover_water : plane float;
  l_cover_veg : plane float;
  l_cover_notveg : plane float;
  l_morph : cube bool;                (* [mask] after line 146 *)
  l_invalid_after : plane float;      (* line 149 *)
  l_mask : DataArray4 bool            (* [mask], line 161 *)
}.

(** [m.sum(axis=0) / obs] for a boolean array [m] over (time, y, x). *)
Definition ratio (Y X : nat) (m : cube bool) (obs : plane float) : plane float :=
  zip_with2 int_div_f32 (sum_axis0 Y X m) obs.

(** Lines 120 to 161.  [snow_m] and [water_m] are the locals [snow] and
    [water]; [isin_mask] and [morph] keep the value of [mask] after lines
    123 and 146 for the record of locals. *)
Definition preprocess_scl_body (scl_data : DataArray4 Z)
           (mask_values : option (list Z))
           (erode_r dilate_r : option nat)
           (max_invalid_ratio : option float) : result scl_locals :=
  scl_data <- sel_band scl_data "SCL" ;;
  let codes := values3 scl_data in
  let Y := length (y3 scl_data) in
  let X := length (x3 scl_data) in
  let mask_values := SCL_MASK_VALUES in
  let mask := isin mask_values codes in
  let snow_m := map3 (fun c => c =? SCL_LEGEND snow)%Z codes in
  let water_m := map3 (fun c => c =? SCL_LEGEND water)%Z codes in
  let veg := map3 (fun c => c =? SCL_LEGEND vegetation)%Z codes in
  let notveg := map3 (fun c => c =? SCL_LEGEND not_vegetated)%Z codes in
  let ts_obs := map3 (fun c => negb (c =? 0)%Z) codes in
  let obs := map2 f32_of_Z (sum_axis0 Y X ts_obs) in
  let ma_mask := zip_with3 andb mask ts_obs in
  let invalid_before := ratio Y X ma_mask obs in
  let cover_snow := ratio Y X (zip_with3 andb snow_m ts_obs) obs in
  let cover_water := ratio Y X (zip_with3 andb water_m ts_obs) obs in
  let cover_veg := ratio Y X (zip_with3 andb veg ts_obs) obs in
  let cover_notveg := ratio Y X (zip_with3 andb notveg ts_obs) obs in
  let isin_mask := mask in
  go <- radius_gate erode_r ;;
  mask <- (if go : bool
           then e <- footprints_disk erode_r ;;
                da_stack (map (fun m => binary_erosion m e) mask)
           else Ok mask) ;;
  go <- radius_gate dilate_r ;;
  mask <- (if go : bool
           then d <- footprints_disk dilate_r ;;
                da_stack (map (fun m => binary_dilation m d) mask)
           else Ok mask) ;;
  let morph := mask in
  let ma_mask := zip_with3 andb mask ts_obs in
  let invalid_after := ratio Y X ma_mask obs in
  let mask := map3 negb mask in
  let mask :=
    match max_invalid_ratio with
    | Some r =>
        let max_invalid_mask := map2 (fun v => f_gt v r) invalid_after in
        zip_with3 orb mask (broadcast_to max_invalid_mask (length mask))
    | None => mask
    end in
  mask <- copy_data scl_data mask ;;
  let mask := assign_coords_band mask "SCL" in
  let mask := expand_dims_band mask in
  Ok (mkLocals scl_data isin_mask ts_obs obs invalid_before
               cover_snow cover_water cover_veg cover_notveg
               morph invalid_after mask).

Definition aux_names : list string :=
  ["l2a_obs"; "scl_invalid_before"; "scl_invalid_after"; "scl_snow_cover";
   "scl_water_cover"; "scl_veg_cover"; "scl_notveg_cover"]%string.

(** [a[0]] on the values of a coordinate. *)
Definition first_value {A : Type} (l : list A) : result A :=
  match l with
  | [] => Raise IndexError
  | a :: _ => Ok a
  end.

(** Lines 163 to 183.  The seven statistics are arrays over (y, x); they
    are joined with [da.concatenate(..., axis=0)], and the joined array is
    given to the DataArray constructor with four dimension names. *)
Definition build_aux (l : scl_locals) : result (DataArray4 float) :=
  a <- da_concatenate [map2 f64_of_f32 (l_obs l);
                       l_invalid_before l;
                       l_invalid_after l;
                       l_cover_snow l;
                       l_cover_water l;
                       l_cover_veg l;
                       l_cover_notveg l] ;;
  let a := map2 f32_of_f64 a in
  t0 <- first_value (time4 (l_mask l)) ;;
  xr_DataArray (Nd2 a) ["time"; "band"; "y"; "x"]%string
               [t0] aux_names (y4 (l_mask l)) (x4 (l_mask l))
               (attrs4 (l_mask l)).

Definition preprocess_scl (scl_data : DataArray4 Z)
           (mask_values : option (list Z))
           (erode_r dilate_r : option nat)
           (max_invalid_ratio : option float) : result SCLMask :=
  l <- preprocess_scl_body scl_data mask_values erode_r dilate_r
                           max_invalid_ratio ;;
  scl_aux <- build_aux l ;;
  Ok (mkSCLMask (l_mask l) scl_aux).

(* ================================================================== *)
(** ** extension.py *)

Definition f64_sub (a b : float) : float := SFsub 53 1024 a b.
Definition f64_add (a b : float) : float := SFadd 53 1024 a b.

(** [a[i]] and [a[-1]] on the values of a coordinate. *)
Definition value_at {A : Type} (l : list A) (i : nat) : result A :=
  match nth_error l i with
  | Some a => Ok a
  | None => Raise IndexError
  end.

Definition last_value {A : Type} (l : list A) : result A :=
  match rev l with
  | [] => Raise IndexError
  | a :: _ => Ok a
  end.

(** The [bounds] property of the accessor: the box of the pixel centres,
    grown by half the step between the first two x coordinates.  The
    subscripts are evaluated in the order of the source. *)
Definition bounds {A : Type} (darr : DataArray4 A)
  : result (float * float * float * float) :=
  x1 <- value_at (x4 darr) 1 ;;
  x0 <- value_at (x4 darr) 0 ;;
  let res := f64_sub x1 x0 in
  let hres := f64_div res (f64_of_Z 2) in
  x0 <- value_at (x4 darr) 0 ;;
  let xmin := f64_sub x0 hres in
  xl <- last_value (x4 darr) ;;
  let xmax := f64_add xl hres in
  yl <- last_value (y4 darr) ;;
  let ymin := f64_sub yl hres in
  y0 <- value_at (y4 darr) 0 ;;
  let ymax := f64_add y0 hres in
  Ok (xmin, ymin, xmax, ymax).

(** [d[k] = v] and [d.get(k)] on the attributes, a dict in insertion
    order. *)
Fixpoint dict_set (k : string) (v : list float) (d : attrs_t) : attrs_t :=
  match d with
  | [] => [(k, v)]
  | (k', v') :: d' =>
      if String.eqb k k' then (k, v) :: d' else (k', v') :: dict_set k v d'
  end.

Fixpoint dict_get (k : string) (d : attrs_t) : option (list float) :=
  match d with
  | [] => None
  | (k', v') :: d' => if String.eqb k k' then Some v' else dict_get k d'
  end.

Definition bounds_value (b : float * float * float * float) : list float :=
  let '(xmin, ymin, xmax, ymax) := b in [xmin; ymin; xmax; ymax].

Record ESAWorldCoverTimeSeries (A : Type) : Type := mkAccessor {
  _obj : DataArray4 A
}.

(** [ESAWorldCoverTimeSeries.__init__]: the bounds are computed first and
    then stored in the attributes of the wrapped array, which the accessor
    shares with its caller. *)
Definition ewc_init {A : Type} (xarray_obj : DataArray4 A)
  : result (ESAWorldCoverTimeSeries A) :=
  b <- bounds xarray_obj ;;
  Ok (mkAccessor
        (mkDataArray4 (values4 xarray_obj) (time4 xarray_obj) (band4 xarray_obj)
                      (y4 xarray_obj) (x4 xarray_obj)
                      (dict_set "bounds" (bounds_value b) (attrs4 xarray_obj)))).

(* ================================================================== *)
(** ** Specification vocabulary *)

(** The mask of line 156 in terms of the post-morphology invalid mask and
    of the post-morphology invalid ratio. *)
Definition final_mask (max_invalid_ratio : option float)
           (morph : cube bool) (invalid_after : plane float) : cube bool :=
  match max_invalid_ratio with
  | Some r =>
      zip_with3 orb (map3 negb morph)
                (broadcast_to (map2 (fun v => f_gt v r) invalid_after) (length morph))
  | None => map3 negb morph
  end.

(** One timestep of the mask from one timestep [p] of the post-morphology
    mask: lines 152 to 156. *)
Definition mask_plane (max_invalid_ratio : option float)
           (invalid_after : plane float) (p : plane bool) : plane bool :=
  match max_invalid_ratio with
  | Some r => zip_with2 orb (map2 negb p) (map2 (fun v => f_gt v r) invalid_after)
  | None => map2 negb p
  end.

(** Erosion then dilation of one plane. *)
Definition open_plane (re rd : nat) (m : plane bool) : plane bool :=
  binary_dilation (binary_erosion m (disk re)) (disk rd).

(** A pixel-time is observed when its code is not 0 (no_data). *)
Definition observed (c : Z) : bool := negb (c =? 0)%Z.

(** From the time series [codes] of one pixel: the number of observed
    timesteps, the number of observed timesteps whose code satisfies
    [sel], and their ratio as the source computes it, an int64 count
    divided by the float32 count of observations. *)
Definition obs_count (codes : list Z) : Z :=
  count_true (map observed codes).

Definition class_count (sel : Z -> bool) (codes : list Z) : Z :=
  count_true (map (fun c => sel c && observed c) codes).

Definition class_ratio (sel : Z -> bool) (codes : list Z) : float :=
  int_div_f32 (class_count sel codes) (f32_of_Z (obs_count codes)).

Definition in_mask_values (c : Z) : bool := existsb (Z.eqb c) SCL_MASK_VALUES.

(** The six ratio bands of the statistics. *)
Definition ratio_bands (l : scl_locals) : list (plane float) :=
  [l_invalid_before l; l_invalid_after l; l_cover_snow l; l_cover_water l;
   l_cover_veg l; l_cover_notveg l].

(** A mantissa shifted left by [k] bits. *)
Definition shl (m : positive) (k : Z) : positive :=
  match k with
  | Zpos p => Pos.iter xO m p
  | _ => m
  end.

(* ================================================================== *)
(** ** Sample inputs *)

(** Three timesteps of a 2 x 2 tile; the pixel (0, 0) is cloud, cloud,
    vegetation, every other pixel is vegetation throughout. *)
Definition sample_stack : DataArray4 Z :=
  mkDataArray4
    [ [ [[9; 4]; [4; 4]] ]; [ [[9; 4]; [4; 4]] ]; [ [[4; 4]; [4; 4]] ] ]%Z
    [100; 200; 300]%Z ["SCL"%string]
    [f64_of_Z 20; f64_of_Z 10] [f64_of_Z 0; f64_of_Z 10] [].

(** One pixel that is never observed. *)
Definition unobserved_stack : DataArray4 Z :=
  mkDataArray4 [ [ [[0]] ]; [ [[0]] ] ]%Z [100; 200]%Z ["SCL"%string]
               [f64_of_Z 20] [f64_of_Z 0] [].

(** 0.5 in binary64. *)
Definition one_half : float := S754_finite false 4503599627370496 (-53).

Definition sample_container : SCLMask :=
  mkSCLMask
    (mkDataArray4 [ [ [[true; false]; [true; true]] ] ] [100%Z] ["SCL"%string]
                  [f64_of_Z 20; f64_of_Z 10] [f64_of_Z 0; f64_of_Z 10] [])
    (mkDataArray4 [ [ [[fzero; fzero]; [fzero; fzero]] ] ] [100%Z] ["l2a_obs"%string]
                  [f64_of_Z 20; f64_of_Z 10] [f64_of_Z 0; f64_of_Z 10] []).

(** The bounds (xmin, ymin, xmax, ymax) of the upper left pixel of the
    sample container. *)
Definition sample_bounds : list float :=
  [f64_of_Z 0; f64_of_Z 15; f64_of_Z 5; f64_of_Z 25].

(** A stack without an SCL band, and one without a timestep. *)
Definition sample_no_scl : DataArray4 Z :=
  mkDataArray4 [ [ [[4; 4]] ] ]%Z [100%Z] ["B02"%string]
               [f64_of_Z 20] [f64_of_Z 0; f64_of_Z 10] [].

Definition sample_no_time : DataArray4 Z :=
  mkDataArray4 [] [] ["SCL"%string]
               [f64_of_Z 20] [f64_of_Z 0; f64_of_Z 10] [].

(** The sample stack with its timesteps in another order. *)
Definition sample_stack_reordered : DataArray4 Z :=
  mkDataArray4
    [ [ [[4; 4]; [4; 4]] ]; [ [[9; 4]; [4; 4]] ]; [ [[9; 4]; [4; 4]] ] ]%Z
    [300; 100; 200]%Z ["SCL"%string]
    [f64_of_Z 20; f64_of_Z 10] [f64_of_Z 0; f64_of_Z 10] [].

Unset Implicit Arguments.

(* ================================================================== *)
(** ** Lists and arrays *)

Lemma nth_error_zip_with {A B C : Type} (f : A -> B -> C) (l1 : list A) (l2 : list B) (n : nat) :
  nth_error (zip_with f l1 l2) n =
  match nth_error l1 n, nth_error l2 n with
  | Some a, Some b => Some (f a b)
  | _, _ => None
  end.
Proof.
  revert l2 n. induction l1 as [|a l1 IH]; intros [|b l2] [|n]; simpl; auto.
  destruct (nth_error l1 n); reflexivity.
Qed.

Lemma length_zip_with {A B C : Type} (f : A -> B -> C) (l1 : list A) (l2 : list B) :
  length (zip_with f l1 l2) = Nat.min (length l1) (length l2).
Proof.
  revert l2. induction l1 as [|a l1 IH]; intros [|b l2]; simpl; auto.
Qed.

Lemma get2_map2 {A B : Type} (f : A -> B) (p : plane A) (y x : nat) :
  get2 (map2 f p) y x = option_map f (get2 p y x).
Proof.
  unfold get2, map2. rewrite nth_error_map.
  destruct (nth_error p y) as [r|]; simpl; [apply nth_error_map | reflexivity].
Qed.

Lemma get3_map3 {A B : Type} (f : A -> B) (c : cube A) (t y x : nat) :
  get3 (map3 f c) t y x = option_map f (get3 c t y x).
Proof.
  unfold get3, map3. rewrite nth_error_map.
  destruct (nth_error c t) as [p|]; simpl; [apply get2_map2 | reflexivity].
Qed.

Lemma get2_zip_with2 {A B C : Type} (f : A -> B -> C) (p : plane A) (q : plane B) (y x : nat) :
  get2 (zip_with2 f p q) y x =
  match get2 p y x, get2 q y x with
  | Some a, Some b => Some (f a b)
  | _, _ => None
  end.
Proof.
  unfold get2, zip_with2. rewrite nth_error_zip_with.
  destruct (nth_error p y) as [r|]; [|reflexivity].
  destruct (nth_error q y) as [r'|].
  - apply nth_error_zip_with.
  - destruct (nth_error r x); reflexivity.
Qed.

Lemma get3_zip_with3 {A B C : Type} (f : A -> B -> C) (c : cube A) (d : cube B) (t y x : nat) :
  get3 (zip_with3 f c d) t y x =
  match get3 c t y x, get3 d t y x with
  | Some a, Some b => Some (f a b)
  | _, _ => None
  end.
Proof.
  unfold get3, zip_with3. rewrite nth_error_zip_with.
  destruct (nth_error c t) as [p|]; [|reflexivity].
  destruct (nth_error d t) as [q|].
  - apply get2_zip_with2.
  - destruct (get2 p y x); reflexivity.
Qed.

Lemma nth_error_mapi_from {A B : Type} (f : nat -> A -> B) (l : list A) (i n : nat) :
  nth_error (mapi_from f i l) n = option_map (f (i + n)) (nth_error l n).
Proof.
  revert i n. induction l as [|a l IH]; intros i [|n]; simpl; auto.
  - rewrite Nat.add_0_r. reflexivity.
  - rewrite IH. replace (S i + n) with (i + S n) by lia. reflexivity.
Qed.

Lemma nth_error_mapi {A B : Type} (f : nat -> A -> B) (l : list A) (n : nat) :
  nth_error (mapi f l) n = option_map (f n) (nth_error l n).
Proof. unfold mapi. apply nth_error_mapi_from. Qed.

Lemma length_mapi_from {A B : Type} (f : nat -> A -> B) (l : list A) (i : nat) :
  length (mapi_from f i l) = length l.
Proof. revert i. induction l; intros; simpl; auto. Qed.

Lemma length_mapi {A B : Type} (f : nat -> A -> B) (l : list A) :
  length (mapi f l) = length l.
Proof. apply length_mapi_from. Qed.

Lemma get2_mapi2 {A B : Type} (f : nat -> nat -> A -> B) (p : plane A) (y x : nat) :
  get2 (mapi2 f p) y x = option_map (f y x) (get2 p y x).
Proof.
  unfold get2, mapi2. rewrite nth_error_mapi.
  destruct (nth_error p y) as [r|]; simpl; [apply nth_error_mapi | reflexivity].
Qed.

(** Two lists with the same lookups are equal. *)
Lemma nth_error_ext {A : Type} (l1 l2 : list A) :
  (forall n, nth_error l1 n = nth_error l2 n) -> l1 = l2.
Proof.
  revert l2. induction l1 as [|a l1 IH]; intros [|b l2] H; auto.
  - specialize (H 0). discriminate.
  - specialize (H 0). discriminate.
  - f_equal.
    + specialize (H 0). simpl in H. congruence.
    + apply IH. intro n. apply (H (S n)).
Qed.

(* ================================================================== *)
(** ** Shapes *)

Lemma is_planeb_true {A : Type} (Y X : nat) (p : plane A) :
  is_planeb Y X p = true <->
  length p = Y /\ (forall r, In r p -> length r = X).
Proof.
  unfold is_planeb. rewrite andb_true_iff, Nat.eqb_eq, forallb_forall.
  split; intros [H1 H2]; split; auto; intros r Hr.
  - apply Nat.eqb_eq. auto.
  - apply Nat.eqb_eq. auto.
Qed.

Lemma is_cubeb_true {A : Type} (T Y X : nat) (c : cube A) :
  is_cubeb T Y X c = true <->
  length c = T /\ (forall p, In p c -> is_planeb Y X p = true).
Proof.
  unfold is_cubeb. rewrite andb_true_iff, Nat.eqb_eq, forallb_forall. tauto.
Qed.

Lemma is_hyperb_true {A : Type} (T B Y X : nat) (h : hyper A) :
  is_hyperb T B Y X h = true <->
  length h = T /\ (forall c, In c h -> is_cubeb B Y X c = true).
Proof.
  unfold is_hyperb. rewrite andb_true_iff, Nat.eqb_eq, forallb_forall. tauto.
Qed.

Lemma in_zip_with {A B C : Type} (f : A -> B -> C) (l1 : list A) (l2 : list B) (c : C) :
  In c (zip_with f l1 l2) -> exists a b, In a l1 /\ In b l2 /\ c = f a b.
Proof.
  revert l2. induction l1 as [|a l1 IH]; intros [|b l2]; simpl; try tauto.
  intros [H | H].
  - exists a, b. auto.
  - destruct (IH _ H) as (a' & b' & Ha & Hb & E). exists a', b'. auto.
Qed.

Lemma in_mapi_from {A B : Type} (f : nat -> A -> B) (l : list A) (i : nat) (b : B) :
  In b (mapi_from f i l) -> exists j a, In a l /\ b = f j a.
Proof.
  revert i. induction l as [|a l IH]; simpl; intros i; [tauto|].
  intros [H | H].
  - exists i, a. auto.
  - destruct (IH _ H) as (j & a' & Ha & E). exists j, a'. auto.
Qed.

Lemma is_planeb_get2 {A : Type} (Y X : nat) (p : plane A) (y x : nat) :
  is_planeb Y X p = true -> y < Y -> x < X -> exists a, get2 p y x = Some a.
Proof.
  intros H Hy Hx. apply is_planeb_true in H. destruct H as [HY HX].
  unfold get2. destruct (nth_error p y) as [r|] eqn:E.
  - assert (Hr : length r = X) by (apply HX; eapply nth_error_In; eauto).
    destruct (nth_error r x) as [a|] eqn:E'; [eauto|].
    apply nth_error_None in E'. lia.
  - apply nth_error_None in E. lia.
Qed.

Lemma is_planeb_map2 {A B : Type} (f : A -> B) (Y X : nat) (p : plane A) :
  is_planeb Y X p = true -> is_planeb Y X (map2 f p) = true.
Proof.
  rewrite !is_planeb_true. unfold map2. intros [HY HX]. split.
  - rewrite length_map. exact HY.
  - intros r Hr. apply in_map_iff in Hr. destruct Hr as (r' & <- & Hr').
    rewrite length_map. auto.
Qed.

Lemma is_planeb_zip_with2 {A B C : Type} (f : A -> B -> C) (Y X : nat)
      (p : plane A) (q : plane B) :
  is_planeb Y X p = true -> is_planeb Y X q = true ->
  is_planeb Y X (zip_with2 f p q) = true.
Proof.
  rewrite !is_planeb_true. unfold zip_with2. intros [HY HX] [HY' HX']. split.
  - rewrite length_zip_with. lia.
  - intros r Hr. apply in_zip_with in Hr. destruct Hr as (a & b & Ha & Hb & ->).
    rewrite length_zip_with, (HX _ Ha), (HX' _ Hb). lia.
Qed.

Lemma is_planeb_mapi2 {A B : Type} (f : nat -> nat -> A -> B) (Y X : nat) (p : plane A) :
  is_planeb Y X p = true -> is_planeb Y X (mapi2 f p) = true.
Proof.
  rewrite !is_planeb_true. unfold mapi2. intros [HY HX]. split.
  - rewrite length_mapi. exact HY.
  - intros r Hr. apply in_mapi_from in Hr. destruct Hr as (j & a & Ha & ->).
    rewrite length_mapi. auto.
Qed.

Lemma is_planeb_zeros2 (Y X : nat) : is_planeb Y X (zeros2 Y X) = true.
Proof.
  apply is_planeb_true. unfold zeros2. split.
  - apply repeat_length.
  - intros r Hr. apply repeat_spec in Hr. subst. apply repeat_length.
Qed.

Lemma is_planeb_sum_axis0 (Y X : nat) (c : cube bool) :
  (forall p, In p c -> is_planeb Y X p = true) ->
  is_planeb Y X (sum_axis0 Y X c) = true.
Proof.
  unfold sum_axis0. generalize (is_planeb_zeros2 Y X).
  generalize (zeros2 Y X) as acc.
  induction c as [|p c IH]; simpl; intros acc Hacc Hc; [exact Hacc|].
  apply IH.
  - apply is_planeb_zip_with2; [exact Hacc|].
    apply is_planeb_map2. apply Hc. left. reflexivity.
  - intros q Hq. apply Hc. right. exact Hq.
Qed.

Lemma is_planeb_erosion (Y X : nat) (m fp : plane bool) :
  is_planeb Y X m = true -> is_planeb Y X (binary_erosion m fp) = true.
Proof. apply is_planeb_mapi2. Qed.

Lemma is_planeb_dilation (Y X : nat) (m fp : plane bool) :
  is_planeb Y X m = true -> is_planeb Y X (binary_dilation m fp) = true.
Proof. apply is_planeb_mapi2. Qed.

Lemma is_cubeb_map {A B : Type} (g : plane A -> plane B) (T Y X : nat) (c : cube A) :
  (forall p, is_planeb Y X p = true -> is_planeb Y X (g p) = true) ->
  is_cubeb T Y X c = true -> is_cubeb T Y X (map g c) = true.
Proof.
  intros Hg. rewrite !is_cubeb_true. intros [HT HP]. split.
  - rewrite length_map. exact HT.
  - intros p Hp. apply in_map_iff in Hp. destruct Hp as (q & <- & Hq). auto.
Qed.

Lemma is_cubeb_map3 {A B : Type} (f : A -> B) (T Y X : nat) (c : cube A) :
  is_cubeb T Y X c = true -> is_cubeb T Y X (map3 f c) = true.
Proof. apply is_cubeb_map. intros p. apply is_planeb_map2. Qed.

Lemma is_cubeb_zip_with3 {A B C : Type} (f : A -> B -> C) (T Y X : nat)
      (c : cube A) (d : cube B) :
  is_cubeb T Y X c = true -> is_cubeb T Y X d = true ->
  is_cubeb T Y X (zip_with3 f c d) = true.
Proof.
  rewrite !is_cubeb_true. unfold zip_with3. intros [HT HP] [HT' HP']. split.
  - rewrite length_zip_with. lia.
  - intros p Hp. apply in_zip_with in Hp. destruct Hp as (a & b & Ha & Hb & ->).
    apply is_planeb_zip_with2; auto.
Qed.

Lemma is_cubeb_broadcast {A : Type} (T Y X : nat) (p : plane A) :
  is_planeb Y X p = true -> is_cubeb T Y X (broadcast_to p T) = true.
Proof.
  intros H. apply is_cubeb_true. unfold broadcast_to. split.
  - apply repeat_length.
  - intros q Hq. apply repeat_spec in Hq. subst. exact H.
Qed.

Lemma is_cubeb_planes {A : Type} (T Y X : nat) (c : cube A) (p : plane A) :
  is_cubeb T Y X c = true -> In p c -> is_planeb Y X p = true.
Proof. intros H. apply is_cubeb_true in H. apply H. Qed.

(* ================================================================== *)
(** ** Reductions along time *)

Lemma get2_nth {A : Type} (p : plane A) (y x : nat) (a d : A) :
  get2 p y x = Some a -> nth x (nth y p []) d = a.
Proof.
  unfold get2. destruct (nth_error p y) as [r|] eqn:E; [|discriminate].
  intros E'. rewrite (nth_error_nth _ _ _ E). apply nth_error_nth. exact E'.
Qed.

Lemma get2_zeros2 (Y X y x : nat) :
  y < Y -> x < X -> get2 (zeros2 Y X) y x = Some 0%Z.
Proof.
  intros Hy Hx. unfold get2, zeros2.
  rewrite nth_error_repeat by exact Hy. apply nth_error_repeat. exact Hx.
Qed.

Lemma count_true_cons (b : bool) (l : list bool) :
  count_true (b :: l) = (Z.b2z b + count_true l)%Z.
Proof. reflexivity. Qed.

Lemma get2_fold_sum (c : cube bool) (y x : nat) :
  forall (acc : plane Z) (a0 : Z),
    get2 acc y x = Some a0 ->
    (forall p, In p c -> exists b, get2 p y x = Some b) ->
    get2 (fold_left (fun acc p => zip_with2 Z.add acc (map2 Z.b2z p)) c acc) y x
    = Some (a0 + count_true (pixel_series false c y x))%Z.
Proof.
  induction c as [|p c IH]; simpl; intros acc a0 Hacc Hc.
  - rewrite Z.add_0_r. exact Hacc.
  - destruct (Hc p (or_introl eq_refl)) as [b Hb].
    rewrite (IH _ (a0 + Z.b2z b)%Z).
    + rewrite (get2_nth _ _ _ _ false Hb). f_equal.
      fold (pixel_series false c y x). unfold count_true at 2. simpl.
      fold (count_true (pixel_series false c y x)). lia.
    + rewrite get2_zip_with2, Hacc, get2_map2, Hb. reflexivity.
    + intros q Hq. apply Hc. right. exact Hq.
Qed.

Lemma get2_sum_axis0 (Y X : nat) (c : cube bool) (y x : nat) :
  (forall p, In p c -> is_planeb Y X p = true) -> y < Y -> x < X ->
  get2 (sum_axis0 Y X c) y x = Some (count_true (pixel_series false c y x)).
Proof.
  intros Hc Hy Hx. unfold sum_axis0.
  rewrite (get2_fold_sum c y x (zeros2 Y X) 0%Z).
  - reflexivity.
  - apply get2_zeros2; assumption.
  - intros p Hp. eapply is_planeb_get2; eauto.
Qed.

Lemma pixel_series_map3 {A B : Type} (f : A -> B) (dA : A) (dB : B)
      (Y X : nat) (c : cube A) (y x : nat) :
  (forall p, In p c -> is_planeb Y X p = true) -> y < Y -> x < X ->
  pixel_series dB (map3 f c) y x = map f (pixel_series dA c y x).
Proof.
  intros Hc Hy Hx. unfold pixel_series, map3. rewrite !map_map.
  apply map_ext_in. intros p Hp.
  destruct (is_planeb_get2 Y X p y x (Hc p Hp) Hy Hx) as [a Ha].
  rewrite (get2_nth _ _ _ _ dA Ha). apply get2_nth.
  rewrite get2_map2, Ha. reflexivity.
Qed.

Lemma pixel_series_zip_with3 {A B C : Type} (f : A -> B -> C) (dA : A) (dB : B) (dC : C)
      (Y X : nat) (y x : nat) (c : cube A) :
  forall d : cube B,
    (forall p, In p c -> is_planeb Y X p = true) ->
    (forall q, In q d -> is_planeb Y X q = true) -> y < Y -> x < X ->
    pixel_series dC (zip_with3 f c d) y x
    = zip_with f (pixel_series dA c y x) (pixel_series dB d y x).
Proof.
  induction c as [|p c IH]; intros [|q d] Hc Hd Hy Hx; simpl; auto.
  f_equal.
  - destruct (is_planeb_get2 Y X p y x (Hc p (or_introl eq_refl)) Hy Hx) as [a Ha].
    destruct (is_planeb_get2 Y X q y x (Hd q (or_introl eq_refl)) Hy Hx) as [b Hb].
    rewrite (get2_nth _ _ _ _ dA Ha), (get2_nth _ _ _ _ dB Hb). apply get2_nth.
    rewrite get2_zip_with2, Ha, Hb. reflexivity.
  - apply IH; auto; intros r Hr; [apply Hc | apply Hd]; right; exact Hr.
Qed.

Lemma zip_with_map {A B C D : Type} (f : B -> C -> D) (g : A -> B) (h : A -> C) (l : list A) :
  zip_with f (map g l) (map h l) = map (fun a => f (g a) (h a)) l.
Proof. induction l; simpl; congruence. Qed.

Lemma count_true_all_false (l : list bool) :
  (forall b, In b l -> b = false) -> count_true l = 0%Z.
Proof.
  induction l as [|b l IH]; intros H; [reflexivity|].
  rewrite count_true_cons, IH by (intros; apply H; right; assumption).
  rewrite (H b) by (left; reflexivity). reflexivity.
Qed.

Lemma count_true_zip_false (l1 l2 : list bool) :
  (forall b, In b l2 -> b = false) -> count_true (zip_with andb l1 l2) = 0%Z.
Proof.
  intros H. apply count_true_all_false. intros b Hb.
  apply in_zip_with in Hb. destruct Hb as (u & v & _ & Hv & ->).
  rewrite (H v Hv). apply andb_false_r.
Qed.

(* ================================================================== *)
(** ** The body of [preprocess_scl] *)

Lemma radius_gate_Some (n : nat) : radius_gate (Some n) = Ok true.
Proof. reflexivity. Qed.

Lemma da_stack_Ok {A : Type} (l c : list (plane A)) :
  da_stack l = Ok c -> c = l /\ l <> [].
Proof.
  destruct l; simpl; intros H; [discriminate|].
  injection H as <-. split; [reflexivity | discriminate].
Qed.

Lemma da_stack_map {A B : Type} (f : plane A -> plane B) (l : list (plane A)) :
  l <> [] -> da_stack (map f l) = Ok (map f l).
Proof. destruct l; [congruence | reflexivity]. Qed.

(** What the local variables are when the body returns. *)
Lemma body_inv (s : DataArray4 Z) (mv : option (list Z)) (e d : option nat)
      (r : option float) (l : scl_locals) :
  preprocess_scl_body s mv e d r = Ok l ->
  let sd := l_scl_data l in
  let codes := values3 sd in
  let Y := length (y3 sd) in
  let X := length (x3 sd) in
  let m3 := final_mask r (l_morph l) (l_invalid_after l) in
  exists re rd,
    e = Some re /\ d = Some rd /\
    sel_band s "SCL" = Ok sd /\
    codes <> [] /\
    l_isin l = isin SCL_MASK_VALUES codes /\
    l_ts_obs l = map3 observed codes /\
    l_obs l = map2 f32_of_Z (sum_axis0 Y X (l_ts_obs l)) /\
    l_invalid_before l = ratio Y X (zip_with3 andb (l_isin l) (l_ts_obs l)) (l_obs l) /\
    l_cover_snow l = ratio Y X (zip_with3 andb (map3 (fun c => c =? 11)%Z codes) (l_ts_obs l)) (l_obs l) /\
    l_cover_water l = ratio Y X (zip_with3 andb (map3 (fun c => c =? 6)%Z codes) (l_ts_obs l)) (l_obs l) /\
    l_cover_veg l = ratio Y X (zip_with3 andb (map3 (fun c => c =? 4)%Z codes) (l_ts_obs l)) (l_obs l) /\
    l_cover_notveg l = ratio Y X (zip_with3 andb (map3 (fun c => c =? 5)%Z codes) (l_ts_obs l)) (l_obs l) /\
    l_morph l = map (open_plane re rd) (l_isin l) /\
    l_invalid_after l = ratio Y X (zip_with3 andb (l_morph l) (l_ts_obs l)) (l_obs l) /\
    is_cubeb (length (time3 sd)) Y X m3 = true /\
    l_mask l = mkDataArray4 (map (fun p => [p]) m3) (time3 sd) ["SCL"%string]
                            (y3 sd) (x3 sd) (attrs3 sd).
Proof.
  unfold preprocess_scl_body.
  destruct (sel_band s "SCL") as [sd|] eqn:Esel; [|discriminate].
  cbn [bind].
  destruct e as [re|]; [|discriminate].
  rewrite radius_gate_Some. cbn [bind footprints_disk].
  destruct (da_stack (map (fun m => binary_erosion m (disk re))
                          (isin SCL_MASK_VALUES (values3 sd)))) as [m1|] eqn:E1;
    [|discriminate].
  cbn [bind].
  destruct d as [rd|]; [|discriminate].
  rewrite radius_gate_Some. cbn [bind footprints_disk].
  destruct (da_stack (map (fun m => binary_dilation m (disk rd)) m1)) as [m2|] eqn:E2;
    [|discriminate].
  cbn [bind].
  apply da_stack_Ok in E1. destruct E1 as [-> N1].
  apply da_stack_Ok in E2. destruct E2 as [-> N2].
  match goal with
  | |- context [copy_data sd ?m] => set (M := m)
  end.
  unfold copy_data.
  destruct (is_cubeb (length (time3 sd)) (length (y3 sd)) (length (x3 sd)) M) eqn:EC;
    [|discriminate].
  cbn [bind]. intros H. injection H as <-. cbn [l_scl_data l_isin l_ts_obs l_obs
    l_invalid_before l_cover_snow l_cover_water l_cover_veg l_cover_notveg
    l_morph l_invalid_after l_mask].
  exists re, rd.
  assert (Hm : map (fun m => binary_dilation m (disk rd))
                   (map (fun m => binary_erosion m (disk re))
                        (isin SCL_MASK_VALUES (values3 sd)))
               = map (open_plane re rd) (isin SCL_MASK_VALUES (values3 sd))).
  { rewrite map_map. reflexivity. }
  assert (HM : M = final_mask r
                 (map (open_plane re rd) (isin SCL_MASK_VALUES (values3 sd)))
                 (ratio (length (y3 sd)) (length (x3 sd))
                    (zip_with3 andb
                       (map (open_plane re rd) (isin SCL_MASK_VALUES (values3 sd)))
                       (map3 observed (values3 sd)))
                    (map2 f32_of_Z
                       (sum_axis0 (length (y3 sd)) (length (x3 sd))
                                  (map3 observed (values3 sd)))))).
  { subst M. rewrite Hm. unfold final_mask. destruct r; [|reflexivity].
    f_equal. unfold broadcast_to. f_equal. unfold map3. apply length_map. }
  cbv zeta. rewrite Hm.
  repeat split; try reflexivity; try assumption.
  - intros E. apply N1. unfold isin, map3. rewrite E. reflexivity.
  - match goal with
    | |- is_cubeb _ _ _ ?m = true =>
        assert (Hx : m = M) by (symmetry; exact HM); rewrite Hx; exact EC
    end.
  - rewrite HM. reflexivity.
Qed.

Lemma index_of_lt (name : string) (l : list string) (i : nat) :
  index_of name l = Some i -> i < length l.
Proof.
  revert i. induction l as [|s l IH]; simpl; intros i; [discriminate|].
  destruct (String.eqb name s).
  - intros H. injection H as <-. lia.
  - destruct (index_of name l) as [j|]; simpl; [|discriminate].
    intros H. injection H as <-. specialize (IH j eq_refl). lia.
Qed.

Lemma sel_band_inv {A : Type} (s : DataArray4 A) (name : string) (sd : DataArray3 A) :
  sel_band s name = Ok sd ->
  exists i, index_of name (band4 s) = Some i /\
            values3 sd = map (fun c => nth i c []) (values4 s) /\
            time3 sd = time4 s /\ band3 sd = name /\
            y3 sd = y4 s /\ x3 sd = x4 s /\ attrs3 sd = attrs4 s.
Proof.
  unfold sel_band. destruct (index_of name (band4 s)) as [i|]; [|discriminate].
  intros H. injection H as <-. exists i. simpl. repeat split; reflexivity.
Qed.

Lemma sel_band_shape {A : Type} (s : DataArray4 A) (name : string) (sd : DataArray3 A) :
  well_shaped s = true -> sel_band s name = Ok sd ->
  is_cubeb (length (time3 sd)) (length (y3 sd)) (length (x3 sd)) (values3 sd) = true.
Proof.
  intros W H. destruct (sel_band_inv _ _ _ H) as (i & Hi & -> & -> & _ & -> & -> & _).
  unfold well_shaped in W. apply is_hyperb_true in W. destruct W as [HT HC].
  apply is_cubeb_true. split.
  - rewrite length_map. exact HT.
  - intros p Hp. apply in_map_iff in Hp. destruct Hp as (c & <- & Hc).
    specialize (HC c Hc). apply is_cubeb_true in HC. destruct HC as [HB HP].
    apply HP. apply nth_In. apply index_of_lt in Hi.
    unfold hyper, cube, plane in *. lia.
Qed.

Lemma sel_band_values_nonempty {A : Type} (s : DataArray4 A) (name : string)
      (sd : DataArray3 A) :
  sel_band s name = Ok sd -> values4 s <> [] -> values3 sd <> [].
Proof.
  intros H N. destruct (sel_band_inv _ _ _ H) as (i & _ & -> & _).
  intros E. apply map_eq_nil in E. contradiction.
Qed.

Lemma sel_band_Ok {A : Type} (s : DataArray4 A) (name : string) :
  index_of name (band4 s) <> None -> exists sd, sel_band s name = Ok sd.
Proof.
  intros H. unfold sel_band. destruct (index_of name (band4 s)); [eauto | congruence].
Qed.

Lemma is_cubeb_open (re rd T Y X : nat) (c : cube bool) :
  is_cubeb T Y X c = true -> is_cubeb T Y X (map (open_plane re rd) c) = true.
Proof.
  apply is_cubeb_map. intros p Hp. unfold open_plane.
  apply is_planeb_dilation, is_planeb_erosion, Hp.
Qed.

Lemma is_planeb_ratio (T Y X : nat) (m : cube bool) (obs : plane float) :
  is_cubeb T Y X m = true -> is_planeb Y X obs = true ->
  is_planeb Y X (ratio Y X m obs) = true.
Proof.
  intros Hm Ho. unfold ratio. apply is_planeb_zip_with2; [|exact Ho].
  apply is_planeb_sum_axis0. intros p Hp. eapply is_cubeb_planes; eauto.
Qed.

Lemma is_cubeb_final_mask (r : option float) (T Y X : nat)
      (morph : cube bool) (ia : plane float) :
  is_cubeb T Y X morph = true -> is_planeb Y X ia = true ->
  is_cubeb T Y X (final_mask r morph ia) = true.
Proof.
  intros Hm Hi. unfold final_mask. destruct r as [r|].
  - apply is_cubeb_zip_with3; [apply is_cubeb_map3, Hm|].
    assert (HT : length morph = T) by (apply is_cubeb_true in Hm; tauto).
    rewrite HT. apply is_cubeb_broadcast, is_planeb_map2, Hi.
  - apply is_cubeb_map3, Hm.
Qed.

Lemma is_planeb_sum_cube (T Y X : nat) (c : cube bool) :
  is_cubeb T Y X c = true -> is_planeb Y X (sum_axis0 Y X c) = true.
Proof.
  intros H. apply is_planeb_sum_axis0. intros p Hp.
  apply (is_cubeb_planes T Y X c p H Hp).
Qed.

Lemma is_planeb_app {A : Type} (Y1 Y2 X : nat) (p q : plane A) :
  is_planeb Y1 X p = true -> is_planeb Y2 X q = true ->
  is_planeb (Y1 + Y2) X (p ++ q) = true.
Proof.
  rewrite !is_planeb_true. intros [H1 H1'] [H2 H2']. split.
  - rewrite length_app. lia.
  - intros r Hr. apply in_app_or in Hr. destruct Hr; auto.
Qed.

Create HintDb shapes.

#[local] Hint Resolve is_planeb_map2 is_planeb_zip_with2 is_planeb_zeros2
  is_planeb_sum_cube is_planeb_erosion is_planeb_dilation is_planeb_ratio
  is_planeb_app is_cubeb_map3 is_cubeb_zip_with3 is_cubeb_broadcast
  is_cubeb_open is_cubeb_final_mask : shapes.

Lemma is_cubeb_get3 {A : Type} (T Y X : nat) (c : cube A) (t y x : nat) :
  is_cubeb T Y X c = true -> t < T -> y < Y -> x < X ->
  exists a, get3 c t y x = Some a.
Proof.
  intros H Ht Hy Hx. apply is_cubeb_true in H. destruct H as [HT HP].
  unfold get3. destruct (nth_error c t) as [p|] eqn:E.
  - eapply is_planeb_get2; eauto. apply HP. eapply nth_error_In; eauto.
  - apply nth_error_None in E. lia.
Qed.

Lemma get4_expand {A : Type} (c : cube A) (t y x : nat) :
  get4 (map (fun p => [p]) c) t 0 y x = get3 c t y x.
Proof.
  unfold get4, get3. rewrite nth_error_map.
  destruct (nth_error c t); reflexivity.
Qed.

Lemma get3_broadcast {A : Type} (p : plane A) (T t y x : nat) :
  t < T -> get3 (broadcast_to p T) t y x = get2 p y x.
Proof.
  intros Ht. unfold get3, broadcast_to. rewrite nth_error_repeat by exact Ht.
  reflexivity.
Qed.

Lemma length_final_mask (r : option float) (morph : cube bool) (ia : plane float) :
  length (final_mask r morph ia) = length morph.
Proof.
  unfold final_mask, zip_with3, broadcast_to, map3. destruct r.
  - rewrite length_zip_with, length_map, repeat_length. lia.
  - apply length_map.
Qed.

Lemma zip_with_repeat {A B C : Type} (f : A -> B -> C) (l : list A) (b : B) :
  zip_with f l (repeat b (length l)) = map (fun a => f a b) l.
Proof. induction l; simpl; congruence. Qed.

Lemma final_mask_map (r : option float) (morph : cube bool) (ia : plane float) :
  final_mask r morph ia
  = map (fun p => match r with
                  | Some r0 => zip_with2 orb (map2 negb p)
                                         (map2 (fun v => f_gt v r0) ia)
                  | None => map2 negb p
                  end) morph.
Proof.
  unfold final_mask. destruct r as [r0|]; [|reflexivity].
  unfold zip_with3, broadcast_to, map3.
  rewrite <- (length_map (map2 negb) morph), zip_with_repeat, map_map.
  reflexivity.
Qed.

(** When the body returns, the stack has a first timestep. *)
Lemma body_time_nonempty (s : DataArray4 Z) (mv : option (list Z)) (e d : option nat)
      (r : option float) (l : scl_locals) :
  preprocess_scl_body s mv e d r = Ok l -> time4 (l_mask l) <> [].
Proof.
  intros H. destruct (body_inv _ _ _ _ _ _ H)
    as (re & rd & _ & _ & _ & Hne & Hi & _ & _ & _ & _ & _ & _ & _ & Hm & _ & Hc & ->).
  simpl. apply is_cubeb_true in Hc. destruct Hc as [Hl _].
  rewrite length_final_mask, Hm, length_map, Hi in Hl.
  unfold isin, map3 in Hl. rewrite length_map in Hl.
  intros E. rewrite E in Hl. simpl in Hl.
  apply length_zero_iff_nil in Hl. contradiction.
Qed.

Lemma is_hyperb_expand {A : Type} (T Y X : nat) (c : cube A) :
  is_cubeb T Y X c = true -> is_hyperb T 1 Y X (map (fun p => [p]) c) = true.
Proof.
  intros H. apply is_cubeb_true in H. destruct H as [HT HP].
  apply is_hyperb_true. split.
  - rewrite length_map. exact HT.
  - intros q Hq. apply in_map_iff in Hq. destruct Hq as (p & <- & Hp).
    unfold is_cubeb. simpl. rewrite (HP p Hp). reflexivity.
Qed.

(* ================================================================== *)
(** ** Footprints of radius 0 *)

Lemma mapi2_id {A : Type} (f : nat -> nat -> A -> A) (p : plane A) :
  (forall y x a, get2 p y x = Some a -> f y x a = a) -> mapi2 f p = p.
Proof.
  intros H. apply nth_error_ext. intro y. unfold mapi2.
  rewrite nth_error_mapi. destruct (nth_error p y) as [row|] eqn:E; simpl; [|reflexivity].
  f_equal. apply nth_error_ext. intro x. rewrite nth_error_mapi.
  destruct (nth_error row x) as [a|] eqn:E'; simpl; [|reflexivity].
  f_equal. apply H. unfold get2. rewrite E. exact E'.
Qed.

Lemma pixel_or_border_inside (m : plane bool) (y x : nat) (a : bool) :
  get2 m y x = Some a -> pixel_or_border m (Z.of_nat y) (Z.of_nat x) = a.
Proof.
  intros H. unfold pixel_or_border.
  replace (0 <=? Z.of_nat y)%Z with true by (symmetry; apply Z.leb_le; lia).
  replace (0 <=? Z.of_nat x)%Z with true by (symmetry; apply Z.leb_le; lia).
  simpl. rewrite !Nat2Z.id, H. reflexivity.
Qed.

Lemma disk_0_offsets : footprint_offsets (disk 0) = [(0, 0)%Z].
Proof. reflexivity. Qed.

(** A disk of radius 0 is the single centre cell: erosion and dilation
    with it change nothing. *)
Lemma binary_erosion_disk_0 (m : plane bool) : binary_erosion m (disk 0) = m.
Proof.
  unfold binary_erosion. rewrite disk_0_offsets. apply mapi2_id.
  intros y x a H. cbn [forallb fst snd]. rewrite !Z.add_0_r.
  rewrite (pixel_or_border_inside m y x a H). apply andb_true_r.
Qed.

Lemma binary_dilation_disk_0 (m : plane bool) : binary_dilation m (disk 0) = m.
Proof.
  unfold binary_dilation. rewrite disk_0_offsets. apply mapi2_id.
  intros y x a H. cbn [existsb fst snd]. rewrite !Z.sub_0_r.
  rewrite (pixel_or_border_inside m y x a H). apply orb_false_r.
Qed.

Lemma open_plane_0 (c : cube bool) : map (open_plane 0 0) c = c.
Proof.
  rewrite <- (map_id c) at 2. apply map_ext. intros m. unfold open_plane.
  rewrite binary_erosion_disk_0. apply binary_dilation_disk_0.
Qed.

(* ================================================================== *)
(** ** The time series of a pixel *)

Lemma get2_ratio (T Y X : nat) (m : cube bool) (obs : plane float)
      (y x : nat) (o : float) :
  is_cubeb T Y X m = true -> y < Y -> x < X -> get2 obs y x = Some o ->
  get2 (ratio Y X m obs) y x
  = Some (int_div_f32 (count_true (pixel_series false m y x)) o).
Proof.
  intros Hm Hy Hx Ho. unfold ratio.
  rewrite get2_zip_with2, get2_sum_axis0, Ho; auto.
  intros p Hp. eapply is_cubeb_planes; eauto.
Qed.

Lemma class_series (sel : Z -> bool) (T Y X : nat) (codes : cube Z) (y x : nat) :
  is_cubeb T Y X codes = true -> y < Y -> x < X ->
  count_true (pixel_series false
                (zip_with3 andb (map3 sel codes) (map3 observed codes)) y x)
  = class_count sel (pixel_series 0%Z codes y x).
Proof.
  intros Hc Hy Hx. unfold class_count.
  assert (HP : forall p, In p codes -> is_planeb Y X p = true)
    by (intros p Hp; eapply is_cubeb_planes; eauto).
  rewrite (pixel_series_zip_with3 andb false false false Y X y x).
  - rewrite (pixel_series_map3 sel 0%Z false Y X codes y x HP Hy Hx).
    rewrite (pixel_series_map3 observed 0%Z false Y X codes y x HP Hy Hx).
    rewrite zip_with_map. reflexivity.
  - intros p Hp.
    apply (is_cubeb_planes T Y X _ p (is_cubeb_map3 sel T Y X codes Hc) Hp).
  - intros p Hp.
    apply (is_cubeb_planes T Y X _ p (is_cubeb_map3 observed T Y X codes Hc) Hp).
  - exact Hy.
  - exact Hx.
Qed.

Lemma unobserved_counts (codes : list Z) :
  Forall (fun c => c = 0%Z) codes ->
  obs_count codes = 0%Z /\
  (forall sel, class_count sel codes = 0%Z) /\
  (forall l, count_true (zip_with andb l (map observed codes)) = 0%Z).
Proof.
  intros H. rewrite Forall_forall in H.
  assert (Hobs : forall b, In b (map observed codes) -> b = false).
  { intros b Hb. apply in_map_iff in Hb. destruct Hb as (c & <- & Hc).
    rewrite (H c Hc). reflexivity. }
  split; [|split].
  - apply count_true_all_false. exact Hobs.
  - intros sel. apply count_true_all_false. intros b Hb.
    apply in_map_iff in Hb. destruct Hb as (c & <- & Hc).
    rewrite (H c Hc). apply andb_false_r.
  - intros l. apply count_true_zip_false. exact Hobs.
Qed.

(* ================================================================== *)
(** ** The gates of the morphology stages (lines 140 and 144) *)

(** C2: on a stack with an SCL band and at least one timestep, a call
    with [erode_r=None] or with [dilate_r=None] does not skip the stage:
    the gate compares [None] with 0 and the call raises TypeError. *)
Theorem none_radius_raises (s : DataArray4 Z) (mv : option (list Z))
        (e d : option nat) (r : option float) :
  index_of "SCL" (band4 s) <> None -> values4 s <> [] ->
  e = None \/ d = None ->
  preprocess_scl s mv e d r = Raise TypeError.
Proof.
  intros HB HV Hed. destruct (sel_band_Ok s "SCL" HB) as [sd Hsd].
  pose proof (sel_band_values_nonempty _ _ _ Hsd HV) as Hne.
  unfold preprocess_scl, preprocess_scl_body. rewrite Hsd. cbn [bind].
  destruct e as [re|]; [|reflexivity].
  destruct Hed as [Hed | ->]; [discriminate|].
  rewrite radius_gate_Some. cbn [bind footprints_disk].
  rewrite da_stack_map
    by (unfold isin, map3; intros E; apply map_eq_nil in E; auto).
  reflexivity.
Qed.

Lemma none_radius_raises_witness :
  preprocess_scl sample_stack None None None None = Raise TypeError.
Proof.
  apply (none_radius_raises sample_stack None None None None).
  - discriminate.
  - discriminate.
  - left. reflexivity.
Defined.

(** C8: with neither radius given the call computes no statistics to
    compare: on no stack does it get past line 140. *)
Theorem no_morphology_never_returns (s : DataArray4 Z) (mv : option (list Z))
        (r : option float) :
  (forall l, preprocess_scl_body s mv None None r <> Ok l) /\
  (forall m, preprocess_scl s mv None None r <> Ok m) /\
  (preprocess_scl s mv None None r = Raise KeyError \/
   preprocess_scl s mv None None r = Raise TypeError).
Proof.
  unfold preprocess_scl, preprocess_scl_body.
  destruct (sel_band s "SCL") as [sd|] eqn:E; cbn [bind radius_gate].
  - repeat split; try discriminate. right. reflexivity.
  - unfold sel_band in E. destruct (index_of "SCL" (band4 s)); [discriminate|].
    injection E as <-. repeat split; try discriminate. left. reflexivity.
Qed.

(* ================================================================== *)
(** ** The mask-value set (lines 122 and 123) *)

Lemma in_mask_values_spec (c : Z) :
  in_mask_values c = true <-> In c [1; 3; 8; 9; 10; 11]%Z.
Proof.
  unfold in_mask_values, SCL_MASK_VALUES. rewrite existsb_exists. split.
  - intros (v & Hv & E). apply Z.eqb_eq in E. subst. exact Hv.
  - intros H. exists c. split; [exact H | apply Z.eqb_refl].
Qed.

(** Pixel (t, y, x) of the selected band is pixel (t, i, y, x) of the
    stack, [i] being the position of the band. *)
Lemma get3_sel_band {A : Type} (h : hyper A) (i t y x : nat) :
  get3 (map (fun c => nth i c []) h) t y x = get4 h t i y x.
Proof.
  unfold get4. unfold get3 at 1. rewrite nth_error_map.
  unfold hyper, cube, plane in *.
  destruct (nth_error h t) as [c|]; cbn [option_map]; [|reflexivity].
  unfold get3. unfold hyper, cube, plane in *.
  destruct (nth_error c i) as [p|] eqn:E.
  - rewrite (nth_error_nth _ _ _ E). reflexivity.
  - apply nth_error_None in E. rewrite nth_overflow by exact E.
    unfold get2. destruct y; reflexivity.
Qed.

(** What lines 120 to 146 make of the stack [s] itself: the codes are the
    planes of its SCL band, timestep by timestep, and the binarized and
    the post-morphology mask are computed from them plane by plane. *)
Lemma body_pinned (s : DataArray4 Z) (mv : option (list Z)) (e d : option nat)
      (r : option float) (l : scl_locals) :
  preprocess_scl_body s mv e d r = Ok l ->
  exists i re rd,
    e = Some re /\ d = Some rd /\
    index_of "SCL" (band4 s) = Some i /\
    sel_band s "SCL" = Ok (l_scl_data l) /\
    values3 (l_scl_data l) = map (fun c => nth i c []) (values4 s) /\
    l_isin l = map (fun c => map2 in_mask_values (nth i c [])) (values4 s) /\
    l_morph l = map (fun c => open_plane re rd (map2 in_mask_values (nth i c [])))
                    (values4 s) /\
    length (values4 s) = length (time4 s).
Proof.
  intros Hl. destruct (body_inv _ _ _ _ _ _ Hl)
    as (re & rd & Ee & Ed & Hsel & _ & Hi & _ & _ & _ & _ & _ & _ & _ & Hm & _ & Hc & _).
  destruct (sel_band_inv _ _ _ Hsel) as (i & Hidx & Hv & Et & _).
  assert (Ei : l_isin l = map (fun c => map2 in_mask_values (nth i c [])) (values4 s)).
  { rewrite Hi, Hv. unfold isin, map3. rewrite map_map. reflexivity. }
  exists i, re, rd. repeat (split; [assumption|]). split.
  - rewrite Hm, Ei, map_map. reflexivity.
  - apply is_cubeb_true in Hc. destruct Hc as [Hlen _].
    rewrite length_final_mask, Hm, Ei, !length_map, Et in Hlen. exact Hlen.
Qed.

(** C3: the caller's [mask_values] is overwritten before its first use;
    two calls that differ in it only give the same result, and the codes
    of the stack's SCL band that are binarized to invalid are those of the
    default set. *)
Theorem mask_values_ignored (s : DataArray4 Z) (mv1 mv2 : option (list Z))
        (e d : option nat) (r : option float) :
  preprocess_scl s mv1 e d r = preprocess_scl s mv2 e d r /\
  preprocess_scl_body s mv1 e d r = preprocess_scl_body s mv2 e d r /\
  forall l, preprocess_scl_body s mv1 e d r = Ok l ->
    sel_band s "SCL" = Ok (l_scl_data l) /\
    l_isin l = isin [1; 3; 8; 9; 10; 11]%Z (values3 (l_scl_data l)) /\
    (forall t y x c, get3 (values3 (l_scl_data l)) t y x = Some c ->
       exists b, get3 (l_isin l) t y x = Some b /\
                 (b = true <-> In c [1; 3; 8; 9; 10; 11]%Z)) /\
    (forall i t y x c,
       index_of "SCL" (band4 s) = Some i ->
       get4 (values4 s) t i y x = Some c ->
       exists b, get3 (l_isin l) t y x = Some b /\
                 (b = true <-> In c [1; 3; 8; 9; 10; 11]%Z)).
Proof.
  split; [reflexivity|]. split; [reflexivity|]. intros l Hl.
  destruct (body_inv _ _ _ _ _ _ Hl) as (re & rd & _ & _ & Hsel & _ & Hi & _).
  assert (Hgen : forall t y x c, get3 (values3 (l_scl_data l)) t y x = Some c ->
            exists b, get3 (l_isin l) t y x = Some b /\
                      (b = true <-> In c [1; 3; 8; 9; 10; 11]%Z)).
  { intros t y x c Hc. exists (in_mask_values c). split.
    - rewrite Hi. unfold isin. rewrite get3_map3, Hc. reflexivity.
    - apply in_mask_values_spec. }
  split; [exact Hsel|]. split; [exact Hi|]. split; [exact Hgen|].
  intros i t y x c Hidx Hc. apply Hgen.
  destruct (sel_band_inv _ _ _ Hsel) as (i' & Hidx' & Hv & _).
  rewrite Hidx in Hidx'. injection Hidx' as <-.
  rewrite Hv, get3_sel_band. exact Hc.
Qed.

(* ================================================================== *)
(** ** The auxiliary array (lines 163 to 183) *)

Lemma build_aux_raises (l : scl_locals) :
  time4 (l_mask l) <> [] -> build_aux l = Raise ValueError.
Proof.
  intros H. unfold build_aux. cbn [da_concatenate bind].
  destruct (time4 (l_mask l)); [congruence | reflexivity].
Qed.

(** C4: the seven (y, x) statistics are joined along their rows into one
    two-dimensional array, which the DataArray constructor refuses under
    four dimension names.  No call returns an auxiliary array; a call that
    gets to the assembly raises ValueError there. *)
Theorem aux_assembly_raises (s : DataArray4 Z) (mv : option (list Z))
        (e d : option nat) (r : option float) :
  (forall m, preprocess_scl s mv e d r <> Ok m) /\
  (forall l, preprocess_scl_body s mv e d r = Ok l ->
     build_aux l = Raise ValueError /\
     preprocess_scl s mv e d r = Raise ValueError).
Proof.
  assert (H : forall l, preprocess_scl_body s mv e d r = Ok l ->
                        build_aux l = Raise ValueError).
  { intros l Hl. apply build_aux_raises. eapply body_time_nonempty. exact Hl. }
  split.
  - intros m. unfold preprocess_scl.
    destruct (preprocess_scl_body s mv e d r) as [l|] eqn:E; cbn [bind];
      [|discriminate].
    rewrite (H l eq_refl). discriminate.
  - intros l Hl. split; [apply H; exact Hl|].
    unfold preprocess_scl. rewrite Hl. cbn [bind]. rewrite (H l Hl). reflexivity.
Qed.

(** The sample stack with both radii 0: the body returns, the assembly
    raises. *)
Lemma sample_call_raises :
  preprocess_scl sample_stack None (Some 0) (Some 0) None = Raise ValueError /\
  exists l, preprocess_scl_body sample_stack None (Some 0) (Some 0) None = Ok l.
Proof.
  split; [vm_compute; reflexivity|]. eexists. vm_compute. reflexivity.
Qed.

(* ================================================================== *)
(** ** Morphology (lines 140 to 146) *)


(* ================================================================== *)
(** ** The validity mask (lines 152 to 161) *)

(** C5: when lines 120 to 161 run through, the mask built for the return
    value is a boolean array over (time, band, y, x) with the time, y and x
    coordinates and the attributes of the input, one band named SCL, and
    values that agree with these coordinates.  Its timestep at index [t] is
    computed from the timestep at index [t] of the stack: the binarized
    plane of the SCL band after erosion and dilation, inverted, and or-ed
    with the exceedance map when a threshold is given.  Without
    [max_invalid_ratio] the mask is the negation of the post-morphology
    invalid mask. *)
Theorem mask_shape_and_polarity (s : DataArray4 Z) (mv : option (list Z))
        (e d : option nat) (r : option float) (l : scl_locals) :
  preprocess_scl_body s mv e d r = Ok l ->
  time4 (l_mask l) = time4 s /\
  band4 (l_mask l) = ["SCL"%string] /\
  y4 (l_mask l) = y4 s /\ x4 (l_mask l) = x4 s /\
  attrs4 (l_mask l) = attrs4 s /\
  shape4 (l_mask l) = (length (time4 s), 1, length (y4 s), length (x4 s)) /\
  well_shaped (l_mask l) = true /\
  length (values4 (l_mask l)) = length (values4 s) /\
  exists i re rd,
    e = Some re /\ d = Some rd /\
    index_of "SCL" (band4 s) = Some i /\
    sel_band s "SCL" = Ok (l_scl_data l) /\
    l_morph l = map (fun c => open_plane re rd (map2 in_mask_values (nth i c [])))
                    (values4 s) /\
    (forall t c, nth_error (values4 s) t = Some c ->
       nth_error (values4 (l_mask l)) t
       = Some [mask_plane r (l_invalid_after l)
                 (open_plane re rd (map2 in_mask_values (nth i c [])))]) /\
    (r = None ->
     values4 (l_mask l) = map (fun p => [p]) (map3 negb (l_morph l)) /\
     (forall t y x b, get3 (l_morph l) t y x = Some b ->
                      get4 (values4 (l_mask l)) t 0 y x = Some (negb b)) /\
     (forall t c, nth_error (values4 s) t = Some c ->
        nth_error (values4 (l_mask l)) t
        = Some [map2 negb (open_plane re rd (map2 in_mask_values (nth i c [])))])).
Proof.
  intros Hl.
  destruct (body_inv _ _ _ _ _ _ Hl)
    as (re0 & rd0 & _ & _ & Hsel0 & _ & _ & _ & _ & _ & _ & _ & _ & _ & _ & _ & Hc & Hmask).
  destruct (body_pinned _ _ _ _ _ _ Hl)
    as (i & re & rd & Ee & Ed & Hidx & Hsel & Hv & Hi & Hm & Hlen).
  destruct (sel_band_inv _ _ _ Hsel) as (i' & _ & _ & Et & _ & Ey & Ex & Ea).
  assert (Hplane : forall t c, nth_error (values4 s) t = Some c ->
            nth_error (values4 (l_mask l)) t
            = Some [mask_plane r (l_invalid_after l)
                      (open_plane re rd (map2 in_mask_values (nth i c [])))]).
  { intros t c Ht. rewrite Hmask. cbn [values4].
    rewrite final_mask_map, Hm, !map_map.
    exact (map_nth_error
             (fun c => [mask_plane r (l_invalid_after l)
                          (open_plane re rd (map2 in_mask_values (nth i c [])))])
             t (values4 s) Ht). }
  rewrite Hmask at 1 2 3 4 5 6 7 8.
  unfold shape4, well_shaped. cbn [time4 band4 y4 x4 attrs4 values4 length].
  rewrite Et, Ey, Ex, Ea in *.
  repeat (split; [reflexivity|]).
  split; [apply is_hyperb_expand; exact Hc|].
  split.
  { rewrite length_map, length_final_mask, Hm, length_map. reflexivity. }
  exists i, re, rd. repeat (split; [assumption|]).
  intros ->. split; [|split].
  - rewrite Hmask. reflexivity.
  - intros t y x b Hb. rewrite Hmask. cbn [values4 final_mask].
    rewrite get4_expand, get3_map3, Hb. reflexivity.
  - intros t c Ht. rewrite (Hplane t c Ht). reflexivity.
Qed.

(** C1, as the code has it: when lines 120 to 161 run through with a
    threshold, wherever the post-morphology invalid ratio of a pixel
    exceeds [max_invalid_ratio], the mask built by [preprocess_scl] is
    True at that pixel at every timestep, whatever the code observed
    there: the exceedance map is or-ed into the mask after the mask has
    been inverted to True = valid. *)
Theorem override_marks_valid (s : DataArray4 Z) (mv : option (list Z))
        (e d : option nat) (r : float) (l : scl_locals) :
  preprocess_scl_body s mv e d (Some r) = Ok l ->
  forall t y x v,
    t < length (time4 s) -> y < length (y4 s) -> x < length (x4 s) ->
    get2 (l_invalid_after l) y x = Some v -> f_gt v r = true ->
    get4 (values4 (l_mask l)) t 0 y x = Some true.
Proof.
  intros Hl t y x v Ht Hy Hx Hv Hgt.
  destruct (body_inv _ _ _ _ _ _ Hl)
    as (re' & rd' & _ & _ & Hsel & _ & _ & _ & _ & _ & _ & _ & _ & _ & _ & _ & Hc & ->).
  destruct (sel_band_inv _ _ _ Hsel) as (i & _ & _ & Et & _ & Ey & Ex & _).
  rewrite Et, Ey, Ex in Hc. cbn [values4]. rewrite get4_expand.
  destruct (is_cubeb_get3 _ _ _ _ _ _ _ Hc Ht Hy Hx) as [b Hb]. rewrite Hb.
  unfold final_mask in Hb, Hc. rewrite get3_zip_with3 in Hb.
  assert (Hlen : length (l_morph l) = length (time4 s)).
  { apply is_cubeb_true in Hc. destruct Hc as [Hc _].
    unfold zip_with3, broadcast_to, map3 in Hc.
    rewrite length_zip_with, length_map, repeat_length in Hc. lia. }
  rewrite get3_broadcast, get2_map2, Hv in Hb by lia. simpl in Hb.
  rewrite Hgt in Hb.
  destruct (get3 (map3 negb (l_morph l)) t y x); [|discriminate].
  injection Hb as <-. rewrite orb_true_r. reflexivity.
Qed.

(** With identity morphology the code observed is all that decides the
    mask.  C10: a pixel-time whose code is 0 (no_data) is not binarized to
    invalid, and when lines 120 to 161 run through with both radii 0 and
    no [max_invalid_ratio] it is True in the mask, as is every pixel-time
    whose code is outside the mask-value set: the mask does not tell an
    unobserved pixel-time from a valid observation. *)
Theorem no_data_marked_valid (s : DataArray4 Z) (mv : option (list Z))
        (l : scl_locals) :
  preprocess_scl_body s mv (Some 0) (Some 0) None = Ok l ->
  sel_band s "SCL" = Ok (l_scl_data l) /\
  in_mask_values (SCL_LEGEND no_data) = false /\
  (forall t y x,
      get3 (values3 (l_scl_data l)) t y x = Some (SCL_LEGEND no_data) ->
      get3 (l_isin l) t y x = Some false /\
      get4 (values4 (l_mask l)) t 0 y x = Some true) /\
  (forall t y x c,
      get3 (values3 (l_scl_data l)) t y x = Some c ->
      in_mask_values c = false ->
      get4 (values4 (l_mask l)) t 0 y x = Some true) /\
  (forall i t y x,
      index_of "SCL" (band4 s) = Some i ->
      get4 (values4 s) t i y x = Some (SCL_LEGEND no_data) ->
      get3 (l_isin l) t y x = Some false /\
      get4 (values4 (l_mask l)) t 0 y x = Some true).
Proof.
  intros Hl.
  destruct (body_inv _ _ _ _ _ _ Hl)
    as (re' & rd' & Ee & Ed & Hsel & _ & Hi & _ & _ & _ & _ & _ & _ & _ & Hm & _ & _ & Hmask).
  injection Ee as <-. injection Ed as <-.
  rewrite open_plane_0 in Hm.
  assert (Hgen : forall t y x c,
             get3 (values3 (l_scl_data l)) t y x = Some c ->
             get3 (l_isin l) t y x = Some (in_mask_values c) /\
             get4 (values4 (l_mask l)) t 0 y x = Some (negb (in_mask_values c))).
  { intros t y x c Hc.
    assert (E : get3 (l_isin l) t y x = Some (in_mask_values c))
      by (rewrite Hi; unfold isin; rewrite get3_map3, Hc; reflexivity).
    split; [exact E|].
    rewrite Hmask. cbn [values4 final_mask].
    rewrite get4_expand, get3_map3, Hm, E. reflexivity. }
  assert (Hzero : forall t y x,
             get3 (values3 (l_scl_data l)) t y x = Some (SCL_LEGEND no_data) ->
             get3 (l_isin l) t y x = Some false /\
             get4 (values4 (l_mask l)) t 0 y x = Some true).
  { intros t y x Hc. destruct (Hgen t y x _ Hc) as [H1 H2].
    rewrite H1, H2. split; reflexivity. }
  split; [exact Hsel|]. split; [reflexivity|]. split; [exact Hzero|]. split.
  - intros t y x c Hc Hn. destruct (Hgen t y x c Hc) as [_ H2].
    rewrite H2, Hn. reflexivity.
  - intros i t y x Hidx Hc. apply Hzero.
    destruct (sel_band_inv _ _ _ Hsel) as (i' & Hidx' & Hv & _).
    rewrite Hidx in Hidx'. injection Hidx' as <-.
    rewrite Hv, get3_sel_band. exact Hc.
Qed.

(* ================================================================== *)
(** ** The statistics (lines 129 to 149) *)


(** *** The joined statistics (line 168) *)

Lemma body_shapes (s : DataArray4 Z) (mv : option (list Z)) (e d : option nat)
      (r : option float) (l : scl_locals) :
  well_shaped s = true ->
  preprocess_scl_body s mv e d r = Ok l ->
  let Y := length (y4 s) in
  let X := length (x4 s) in
  is_planeb Y X (l_obs l) = true /\
  is_planeb Y X (l_invalid_before l) = true /\
  is_planeb Y X (l_invalid_after l) = true /\
  is_planeb Y X (l_cover_snow l) = true /\
  is_planeb Y X (l_cover_water l) = true /\
  is_planeb Y X (l_cover_veg l) = true /\
  is_planeb Y X (l_cover_notveg l) = true.
Proof.
  intros s_shape Hl. destruct (body_inv _ _ _ _ _ _ Hl)
    as (re & rd & _ & _ & Hsel & _ & Hi & Hts & Hobs & Hib & Hsn & Hwa & Hve
        & Hnv & Hm & Hia & _ & _).
  pose proof (sel_band_shape _ _ _ s_shape Hsel) as Hc.
  destruct (sel_band_inv _ _ _ Hsel) as (i & _ & _ & _ & _ & Ey & Ex & _).
  rewrite Ey, Ex in *. cbv zeta.
  set (T := length (time3 (l_scl_data l))) in *.
  set (Y := length (y4 s)) in *. set (X := length (x4 s)) in *.
  assert (Hs : is_cubeb T Y X (l_ts_obs l) = true)
    by (rewrite Hts; auto with shapes).
  assert (Hb : is_cubeb T Y X (l_isin l) = true)
    by (rewrite Hi; unfold isin; auto with shapes).
  assert (Ho : is_planeb Y X (l_obs l) = true)
    by (rewrite Hobs; eauto with shapes).
  assert (Hmo : is_cubeb T Y X (l_morph l) = true)
    by (rewrite Hm; auto with shapes).
  rewrite Hib, Hia, Hsn, Hwa, Hve, Hnv.
  repeat split; eauto 6 with shapes.
Qed.

(** The array given to the DataArray constructor has two dimensions: the
    seven (y, x) statistics one below the other, 7 * y rows of x values. *)
Lemma aux_joined_along_rows (s : DataArray4 Z) (mv : option (list Z))
      (e d : option nat) (r : option float) (l : scl_locals) :
  well_shaped s = true ->
  preprocess_scl_body s mv e d r = Ok l ->
  exists a,
    da_concatenate [map2 f64_of_f32 (l_obs l); l_invalid_before l;
                    l_invalid_after l; l_cover_snow l; l_cover_water l;
                    l_cover_veg l; l_cover_notveg l] = Ok a /\
    is_planeb (7 * length (y4 s)) (length (x4 s)) (map2 f32_of_f64 a) = true /\
    ndim (Nd2 (map2 f32_of_f64 a)) = 2.
Proof.
  intros s_shape Hl.
  destruct (body_shapes _ _ _ _ _ _ s_shape Hl) as (H1 & H2 & H3 & H4 & H5 & H6 & H7).
  eexists. split; [reflexivity|].
  split; [|reflexivity].
  apply is_planeb_map2. cbn [concat].
  replace (7 * length (y4 s))
    with (length (y4 s) + (length (y4 s) + (length (y4 s) + (length (y4 s)
          + (length (y4 s) + (length (y4 s) + (length (y4 s) + 0))))))) by lia.
  repeat (apply is_planeb_app; auto with shapes).
Qed.

(* ================================================================== *)
(** ** The properties on the sample inputs *)


Lemma mask_shape_and_polarity_witness :
  exists l,
    preprocess_scl_body sample_stack None (Some 0) (Some 0) None = Ok l /\
    time4 (l_mask l) = [100; 200; 300]%Z /\
    shape4 (l_mask l) = (3, 1, 2, 2) /\
    well_shaped (l_mask l) = true /\
    values4 (l_mask l)
    = [ [ [[false; true]; [true; true]] ]; [ [[false; true]; [true; true]] ];
        [ [[true; true]; [true; true]] ] ].
Proof.
  eexists. split; [vm_compute; reflexivity|].
  refine (match mask_shape_and_polarity sample_stack None (Some 0) (Some 0) None _ _
          with
          | conj Ht (conj _ (conj _ (conj _ (conj _ (conj Hs (conj Hw _)))))) => _
          end).
  - vm_compute. reflexivity.
  - split; [exact Ht|]. split; [exact Hs|]. split; [exact Hw|]. reflexivity.
Defined.

Lemma override_marks_valid_witness :
  exists l,
    preprocess_scl_body sample_stack None (Some 0) (Some 0) (Some one_half) = Ok l /\
    forall t y x v,
      t < length (time4 sample_stack) -> y < length (y4 sample_stack) ->
      x < length (x4 sample_stack) ->
      get2 (l_invalid_after l) y x = Some v -> f_gt v one_half = true ->
      get4 (values4 (l_mask l)) t 0 y x = Some true.
Proof.
  eexists. split; [vm_compute; reflexivity|].
  apply (override_marks_valid sample_stack None (Some 0) (Some 0) one_half).
  vm_compute. reflexivity.
Defined.

(** C1, as the claim states it, fails: at pixel (0, 0) of the sample the
    codes are 9, 9, 4, the invalid ratio 2/3 exceeds 0.5, and the mask is
    True at the three timesteps, not False. *)
Lemma override_not_invalid :
  exists l v,
    preprocess_scl_body sample_stack None (Some 0) (Some 0) (Some one_half) = Ok l /\
    get2 (l_invalid_after l) 0 0 = Some v /\ f_gt v one_half = true /\
    get4 (values4 (l_mask l)) 0 0 0 0 = Some true /\
    get4 (values4 (l_mask l)) 1 0 0 0 = Some true /\
    get4 (values4 (l_mask l)) 2 0 0 0 = Some true /\
    get4 (values4 (l_mask l)) 2 0 0 0 <> Some false.
Proof.
  eexists. eexists. split; [vm_compute; reflexivity|].
  repeat split; try reflexivity. discriminate.
Qed.

Lemma no_data_marked_valid_witness :
  exists l,
    preprocess_scl_body unobserved_stack None (Some 0) (Some 0) None = Ok l /\
    sel_band unobserved_stack "SCL" = Ok (l_scl_data l) /\
    in_mask_values (SCL_LEGEND no_data) = false /\
    (forall t y x,
        get3 (values3 (l_scl_data l)) t y x = Some (SCL_LEGEND no_data) ->
        get3 (l_isin l) t y x = Some false /\
        get4 (values4 (l_mask l)) t 0 y x = Some true) /\
    (forall t y x c,
        get3 (values3 (l_scl_data l)) t y x = Some c ->
        in_mask_values c = false ->
        get4 (values4 (l_mask l)) t 0 y x = Some true) /\
    (forall i t y x,
        index_of "SCL" (band4 unobserved_stack) = Some i ->
        get4 (values4 unobserved_stack) t i y x = Some (SCL_LEGEND no_data) ->
        get3 (l_isin l) t y x = Some false /\
        get4 (values4 (l_mask l)) t 0 y x = Some true).
Proof.
  eexists. split; [vm_compute; reflexivity|].
  apply (no_data_marked_valid unobserved_stack None).
  vm_compute. reflexivity.
Defined.


(** Where the call does run without a change by morphology, with both
    radii 0, the invalid ratio is the same before and after. *)
Lemma identity_morphology_same_ratio (s : DataArray4 Z) (mv : option (list Z))
      (r : option float) (l : scl_locals) :
  preprocess_scl_body s mv (Some 0) (Some 0) r = Ok l ->
  l_invalid_after l = l_invalid_before l.
Proof.
  intros Hl. destruct (body_inv _ _ _ _ _ _ Hl)
    as (re' & rd' & Ee & Ed & _ & _ & _ & _ & _ & Hb & _ & _ & _ & _ & Hm & Ha & _).
  injection Ee as <-. injection Ed as <-.
  rewrite open_plane_0 in Hm. rewrite Ha, Hb, Hm. reflexivity.
Qed.

(* ================================================================== *)
(** ** The container (lines 55 to 58) *)

(** C9: [clip] unpacks its bounds into the positional arguments of
    [rio.clip], which clips to geometries.  With bounds that are numbers,
    such as (xmin, ymin, xmax, ymax), the first number stands where the
    geometries are expected: the crop of the mask raises, the aux array is
    not cropped and no container is returned. *)
Theorem clip_numeric_bounds_raises (geometry : Type)
        (clip_to_geometries :
           forall A : Type, DataArray4 A -> list geometry -> list (py_value geometry)
                            -> result (DataArray4 A))
        (not_geometries :
           forall A : Type, DataArray4 A -> list (py_value geometry) -> exn)
        (self : SCLMask) :
  (forall (b : list float) (clipped : SCLMask),
      @clip geometry clip_to_geometries not_geometries self (map PyFloat b)
      <> Ok clipped) /\
  (forall xmin ymin xmax ymax : float,
      @clip geometry clip_to_geometries not_geometries self
            [PyFloat xmin; PyFloat ymin; PyFloat xmax; PyFloat ymax]
      = Raise (not_geometries bool (mask self)
                 [PyFloat xmin; PyFloat ymin; PyFloat xmax; PyFloat ymax])) /\
  (forall (b : list float) (other : DataArray4 float),
      @clip geometry clip_to_geometries not_geometries
            (mkSCLMask (mask self) other) (map PyFloat b)
      = @clip geometry clip_to_geometries not_geometries self (map PyFloat b)).
Proof.
  assert (H : forall (A : Type) (d : DataArray4 A) (b : list float),
             exists e, @rio_clip geometry clip_to_geometries not_geometries A d
                                 (map PyFloat b) = Raise e).
  { intros A d [|f b]; [eexists; reflexivity|]. cbn [map rio_clip].
    destruct (length (map PyFloat b) <=? 5); eexists; reflexivity. }
  split; [|split].
  - intros b clipped. unfold clip.
    destruct (H bool (mask self) b) as [e ->]. discriminate.
  - intros xmin ymin xmax ymax. reflexivity.
  - intros b other. unfold clip. cbn [mask].
    destruct (H bool (mask self) b) as [e ->]. reflexivity.
Qed.

(** The sample container clipped to the bounds of its upper left pixel. *)
Lemma sample_clip_raises (geometry : Type)
      (clip_to_geometries :
         forall A : Type, DataArray4 A -> list geometry -> list (py_value geometry)
                          -> result (DataArray4 A))
      (not_geometries :
         forall A : Type, DataArray4 A -> list (py_value geometry) -> exn) :
  exists e,
    @clip geometry clip_to_geometries not_geometries sample_container
          (map PyFloat sample_bounds) = Raise e.
Proof. eexists. reflexivity. Qed.

(* ================================================================== *)
(** ** Further properties of [preprocess_scl] *)

(** X1: a stack without a band named SCL raises KeyError at line 120,
    whatever the other arguments are, also when a radius is None. *)
Theorem missing_band_raises (s : DataArray4 Z) (mv : option (list Z))
        (e d : option nat) (r : option float) :
  index_of "SCL" (band4 s) = None ->
  preprocess_scl s mv e d r = Raise KeyError /\
  preprocess_scl_body s mv e d r = Raise KeyError.
Proof.
  intros H. unfold preprocess_scl, preprocess_scl_body, sel_band.
  rewrite H. split; reflexivity.
Qed.

Lemma missing_band_raises_witness :
  preprocess_scl sample_no_scl None None None (Some one_half) = Raise KeyError /\
  preprocess_scl_body sample_no_scl None None None (Some one_half) = Raise KeyError.
Proof.
  apply (missing_band_raises sample_no_scl None None None (Some one_half)).
  reflexivity.
Defined.

(** X2: a stack with an SCL band and no timestep, called with an erosion
    radius, raises ValueError when the empty list of eroded planes is
    stacked at line 142, before the dilation gate is looked at. *)
Theorem empty_time_raises (s : DataArray4 Z) (mv : option (list Z))
        (re : nat) (d : option nat) (r : option float) :
  index_of "SCL" (band4 s) <> None -> values4 s = [] ->
  preprocess_scl s mv (Some re) d r = Raise ValueError.
Proof.
  intros HB HV. destruct (sel_band_Ok s "SCL" HB) as [sd Hsd].
  destruct (sel_band_inv _ _ _ Hsd) as (i & _ & Hv & _).
  rewrite HV in Hv. simpl in Hv.
  unfold preprocess_scl, preprocess_scl_body. rewrite Hsd. cbn [bind].
  rewrite radius_gate_Some. cbn [bind footprints_disk]. rewrite Hv.
  reflexivity.
Qed.

Lemma empty_time_raises_witness :
  preprocess_scl sample_no_time None (Some 1) None None = Raise ValueError.
Proof.
  apply (empty_time_raises sample_no_time None 1 None None).
  - discriminate.
  - reflexivity.
Defined.

(** X3: with both radii 0 the morphology stages run and change nothing:
    the post-morphology mask is the binarized mask and the invalid ratio
    after morphology is the invalid ratio before it. *)
Theorem zero_radius_is_identity (s : DataArray4 Z) (mv : option (list Z))
        (r : option float) (l : scl_locals) :
  preprocess_scl_body s mv (Some 0) (Some 0) r = Ok l ->
  l_morph l = l_isin l /\ l_invalid_after l = l_invalid_before l.
Proof.
  intros Hl. destruct (body_inv _ _ _ _ _ _ Hl)
    as (re' & rd' & Ee & Ed & _ & _ & _ & _ & _ & Hb & _ & _ & _ & _ & Hm & Ha & _).
  injection Ee as <-. injection Ed as <-.
  rewrite open_plane_0 in Hm. split; [exact Hm|].
  rewrite Ha, Hb, Hm. reflexivity.
Qed.

Lemma zero_radius_is_identity_witness :
  exists l,
    preprocess_scl_body sample_stack None (Some 0) (Some 0) None = Ok l /\
    l_morph l = l_isin l /\ l_invalid_after l = l_invalid_before l.
Proof.
  eexists. split; [vm_compute; reflexivity|].
  apply (zero_radius_is_identity sample_stack None None).
  vm_compute. reflexivity.
Defined.

Lemma get2_bounds {A : Type} (Y X : nat) (p : plane A) (y x : nat) (a : A) :
  is_planeb Y X p = true -> get2 p y x = Some a -> y < Y /\ x < X.
Proof.
  intros H G. apply is_planeb_true in H. destruct H as [HY HX].
  unfold get2 in G. destruct (nth_error p y) as [r|] eqn:E; [|discriminate].
  assert (Hr : length r = X) by (apply HX; eapply nth_error_In; eauto).
  split.
  - rewrite <- HY. apply nth_error_Some. congruence.
  - rewrite <- Hr. apply nth_error_Some. congruence.
Qed.

(** The mask with a threshold, from the mask without: the two calls share
    every local up to line 149, and line 156 ors the exceedance of the
    pixel into each timestep. *)
Lemma body_threshold_locals (s : DataArray4 Z) (mv : option (list Z))
      (e d : option nat) (r : float) (l0 l1 : scl_locals) :
  preprocess_scl_body s mv e d None = Ok l0 ->
  preprocess_scl_body s mv e d (Some r) = Ok l1 ->
  l_scl_data l1 = l_scl_data l0 /\ l_isin l1 = l_isin l0 /\
  l_ts_obs l1 = l_ts_obs l0 /\ l_obs l1 = l_obs l0 /\
  l_invalid_before l1 = l_invalid_before l0 /\
  l_cover_snow l1 = l_cover_snow l0 /\ l_cover_water l1 = l_cover_water l0 /\
  l_cover_veg l1 = l_cover_veg l0 /\ l_cover_notveg l1 = l_cover_notveg l0 /\
  l_morph l1 = l_morph l0 /\ l_invalid_after l1 = l_invalid_after l0.
Proof.
  intros H0 H1.
  destruct (body_inv _ _ _ _ _ _ H0)
    as (re & rd & Ee & Ed & Hsel0 & _ & Hi0 & Hts0 & Hobs0 & Hib0 & Hsn0 & Hwa0
        & Hve0 & Hnv0 & Hm0 & Hia0 & _ & _).
  destruct (body_inv _ _ _ _ _ _ H1)
    as (re' & rd' & Ee' & Ed' & Hsel1 & _ & Hi1 & Hts1 & Hobs1 & Hib1 & Hsn1 & Hwa1
        & Hve1 & Hnv1 & Hm1 & Hia1 & _ & _).
  subst e d. injection Ee' as <-. injection Ed' as <-.
  assert (Esd : l_scl_data l1 = l_scl_data l0) by congruence.
  assert (Ei : l_isin l1 = l_isin l0) by congruence.
  assert (Ets : l_ts_obs l1 = l_ts_obs l0) by congruence.
  assert (Eo : l_obs l1 = l_obs l0) by congruence.
  assert (Em : l_morph l1 = l_morph l0) by congruence.
  repeat split; congruence.
Qed.

(** X4: [max_invalid_ratio] never invalidates.  For one stack and one
    pair of radii, the mask of a call with a threshold is, at each
    pixel-time, the mask of the call without threshold or-ed with the
    exceedance of the pixel; what is True without the threshold is True
    with it, and the statistics are the same. *)
Theorem threshold_only_validates (s : DataArray4 Z) (mv : option (list Z))
        (e d : option nat) (r : float) (l0 l1 : scl_locals) :
  preprocess_scl_body s mv e d None = Ok l0 ->
  preprocess_scl_body s mv e d (Some r) = Ok l1 ->
  l_invalid_after l1 = l_invalid_after l0 /\
  (forall t y x b v,
      get4 (values4 (l_mask l0)) t 0 y x = Some b ->
      get2 (l_invalid_after l0) y x = Some v ->
      get4 (values4 (l_mask l1)) t 0 y x = Some (b || f_gt v r)) /\
  (forall t y x,
      get4 (values4 (l_mask l0)) t 0 y x = Some true ->
      get4 (values4 (l_mask l1)) t 0 y x = Some true).
Proof.
  intros H0 H1.
  destruct (body_threshold_locals _ _ _ _ _ _ _ H0 H1)
    as (Esd & _ & _ & _ & _ & _ & _ & _ & _ & Em & Eia).
  destruct (body_inv _ _ _ _ _ _ H0)
    as (re & rd & _ & _ & _ & _ & _ & _ & _ & _ & _ & _ & _ & _ & _ & _ & Hc0 & Hk0).
  destruct (body_inv _ _ _ _ _ _ H1)
    as (re' & rd' & _ & _ & _ & _ & _ & _ & _ & _ & _ & _ & _ & _ & _ & _ & Hc1 & Hk1).
  cbv zeta in Hc0, Hc1, Hk0, Hk1. rewrite Esd, Em, Eia in Hc1, Hk1.
  assert (F : forall t y x b,
             get4 (values4 (l_mask l0)) t 0 y x = Some b ->
             exists v, get2 (l_invalid_after l0) y x = Some v /\
                       get4 (values4 (l_mask l1)) t 0 y x = Some (b || f_gt v r)).
  { intros t y x b Hb. rewrite Hk0 in Hb. rewrite Hk1.
    cbn [values4 final_mask] in *. rewrite get4_expand in *.
    assert (Ht : t < length (l_morph l0)).
    { unfold get3, map3 in Hb. rewrite nth_error_map in Hb.
      destruct (nth_error (l_morph l0) t) eqn:E; [|discriminate].
      apply nth_error_Some. congruence. }
    assert (Hin : exists b1, get3 (zip_with3 orb (map3 negb (l_morph l0))
                     (broadcast_to (map2 (fun v => f_gt v r) (l_invalid_after l0))
                                   (length (l_morph l0)))) t y x = Some b1).
    { apply is_cubeb_true in Hc0. apply is_cubeb_true in Hc1.
      destruct Hc0 as [HT0 HP0]. destruct Hc1 as [HT1 HP1].
      cbn [final_mask] in *.
      unfold get3 in Hb |- *.
      destruct (nth_error (map3 negb (l_morph l0)) t) as [p0|] eqn:E0; [|discriminate].
      destruct (nth_error (zip_with3 orb (map3 negb (l_morph l0))
                  (broadcast_to (map2 (fun v => f_gt v r) (l_invalid_after l0))
                                (length (l_morph l0)))) t) as [p1|] eqn:E1.
      - pose proof (HP0 p0 (nth_error_In _ _ E0)) as S0.
        pose proof (HP1 p1 (nth_error_In _ _ E1)) as S1.
        destruct (get2_bounds _ _ _ _ _ _ S0 Hb) as [By Bx].
        apply (is_planeb_get2 _ _ _ _ _ S1 By Bx).
      - apply nth_error_None in E1.
        unfold zip_with3, broadcast_to, map3 in E1.
        rewrite length_zip_with, length_map, repeat_length in E1. lia. }
    destruct Hin as [b1 Hb1]. rewrite Hb1.
    rewrite get3_zip_with3, Hb, get3_broadcast, get2_map2 in Hb1 by exact Ht.
    destruct (get2 (l_invalid_after l0) y x) as [v|]; [|discriminate].
    simpl in Hb1. exists v. split; [reflexivity|]. congruence. }
  split; [exact Eia|]. split.
  - intros t y x b v Hb Hv. destruct (F t y x b Hb) as (v' & Hv' & Hm).
    rewrite Hv in Hv'. injection Hv' as <-. exact Hm.
  - intros t y x Hb. destruct (F t y x true Hb) as (v & _ & Hm). exact Hm.
Qed.

(* ================================================================== *)
(** ** Rounding of counts and of their ratios *)

Lemma shr_1_nonneg (mrs : shr_record) :
  (0 <= shr_m mrs)%Z -> (0 <= shr_m (shr_1 mrs))%Z.
Proof.
  destruct mrs as [m r s]. simpl. intros H.
  destruct m as [|p|p]; simpl; try lia.
  - destruct p; simpl; lia.
Qed.

Lemma iter_pos_invariant {A : Type} (P : A -> Prop) (f : A -> A) :
  (forall a, P a -> P (f a)) -> forall n a, P a -> P (iter_pos f n a).
Proof.
  intros Hf. induction n as [n IH|n IH|]; simpl; intros a Ha; auto.
Qed.

Lemma shr_nonneg (mrs : shr_record) (e n : Z) :
  (0 <= shr_m mrs)%Z -> (0 <= shr_m (fst (shr mrs e n)))%Z.
Proof.
  intros H. unfold shr. destruct n; simpl; auto.
  apply (iter_pos_invariant (fun r => (0 <= shr_m r)%Z)); auto using shr_1_nonneg.
Qed.

Lemma shr_fexp_nonneg (prec emax m e : Z) (l : location) :
  (0 <= m)%Z -> (0 <= shr_m (fst (shr_fexp prec emax m e l)))%Z.
Proof.
  intros H. unfold shr_fexp. apply shr_nonneg.
  destruct l as [|[]]; simpl; exact H.
Qed.

Lemma round_nearest_even_nonneg (m : Z) (l : location) :
  (0 <= m)%Z -> (0 <= round_nearest_even m l)%Z.
Proof.
  intros H. unfold round_nearest_even. destruct l as [|[]]; try lia.
  destruct (Z.even m); lia.
Qed.

Lemma binary_round_aux_not_nan (prec emax : Z) (s : bool) (m e : Z) (l : location) :
  (0 <= m)%Z -> binary_round_aux prec emax s m e l <> S754_nan.
Proof.
  intros H. unfold binary_round_aux.
  pose proof (shr_fexp_nonneg prec emax m e l H) as H1.
  destruct (shr_fexp prec emax m e l) as [mrs' e']. simpl in H1.
  pose proof (shr_fexp_nonneg prec emax _ e' loc_Exact
                (round_nearest_even_nonneg _ (loc_of_shr_record mrs') H1)) as H2.
  destruct (shr_fexp prec emax (round_nearest_even (shr_m mrs') (loc_of_shr_record mrs'))
                     e' loc_Exact) as [mrs'' e'']. simpl in H2.
  destruct (shr_m mrs''); try discriminate; [|lia].
  destruct (e'' <=? emax - prec)%Z; discriminate.
Qed.

Lemma f64_of_Z_not_nan (n : Z) : (0 <= n)%Z -> f64_of_Z n <> S754_nan.
Proof.
  intros H. unfold f64_of_Z, binary_normalize. destruct n as [|p|p]; [discriminate| |lia].
  unfold binary_round. destruct (shl_align _ _ _) as [mz ez].
  apply binary_round_aux_not_nan. lia.
Qed.

Lemma digits2_iter_xO (m p : positive) :
  Zpos (digits2_pos (Pos.iter xO m p)) = (Zpos (digits2_pos m) + Zpos p)%Z.
Proof.
  induction p as [|p IH] using Pos.peano_ind.
  - simpl. lia.
  - rewrite Pos.iter_succ. simpl digits2_pos. lia.
Qed.

Lemma fexp_canonical (prec emax ez : Z) :
  (emin prec emax <= ez)%Z -> fexp prec emax (prec + ez) = ez.
Proof.
  intros H. unfold fexp. replace (prec + ez - prec)%Z with ez by lia.
  apply Z.max_l. exact H.
Qed.

Lemma binary_round_aux_canonical (prec emax : Z) (s : bool) (mz : positive) (ez : Z) :
  Zpos (digits2_pos mz) = prec -> (emin prec emax <= ez)%Z -> (ez <= emax - prec)%Z ->
  binary_round_aux prec emax s (Zpos mz) ez loc_Exact = S754_finite s mz ez.
Proof.
  intros Hd Hlo Hhi. unfold binary_round_aux, shr_fexp.
  cbn [Zdigits2 shr_record_of_loc]. rewrite Hd, (fexp_canonical _ _ _ Hlo), Z.sub_diag.
  cbn [shr shr_m loc_of_shr_record round_nearest_even Zdigits2 shr_record_of_loc].
  rewrite Hd, (fexp_canonical _ _ _ Hlo), Z.sub_diag.
  cbn [shr shr_m].
  apply Z.leb_le in Hhi. rewrite Hhi. reflexivity.
Qed.

Lemma binary_round_exact (prec emax : Z) (s : bool) (m : positive) (e : Z) :
  (Zpos (digits2_pos m) <= prec)%Z ->
  (emin prec emax <= Zpos (digits2_pos m) + e - prec)%Z ->
  (Zpos (digits2_pos m) + e <= emax)%Z ->
  binary_round prec emax s m e
  = S754_finite s (shl m (prec - Zpos (digits2_pos m)))
                (Zpos (digits2_pos m) + e - prec).
Proof.
  intros Hd Hlo Hhi. unfold binary_round.
  assert (Hf : fexp prec emax (Zpos (digits2_pos m) + e)
               = (Zpos (digits2_pos m) + e - prec)%Z)
    by (unfold fexp; apply Z.max_l; exact Hlo).
  rewrite Hf. unfold shl_align, shl.
  replace (Zpos (digits2_pos m) + e - prec - e)%Z
    with (- (prec - Zpos (digits2_pos m)))%Z by lia.
  destruct (prec - Zpos (digits2_pos m))%Z as [|k|k] eqn:Ek; [| |lia].
  - cbn [Z.opp]. replace (Zpos (digits2_pos m) + e - prec)%Z with e in * by lia.
    apply binary_round_aux_canonical; lia.
  - cbn [Z.opp]. apply binary_round_aux_canonical; try lia.
    rewrite digits2_iter_xO. lia.
Qed.

Lemma digits2_lower (p : positive) :
  (2 ^ (Zpos (digits2_pos p) - 1) <= Zpos p)%Z.
Proof.
  induction p as [p IH|p IH|]; cbn [digits2_pos].
  - replace (Zpos (Pos.succ (digits2_pos p)) - 1)%Z
      with (Z.succ (Zpos (digits2_pos p) - 1)) by lia.
    rewrite Z.pow_succ_r by lia. lia.
  - replace (Zpos (Pos.succ (digits2_pos p)) - 1)%Z
      with (Z.succ (Zpos (digits2_pos p) - 1)) by lia.
    rewrite Z.pow_succ_r by lia. lia.
  - simpl. lia.
Qed.

Lemma digits2_bound (p : positive) (k : Z) :
  (0 <= k)%Z -> (Zpos p < 2 ^ k)%Z -> (Zpos (digits2_pos p) <= k)%Z.
Proof.
  intros Hk H. pose proof (digits2_lower p) as L.
  destruct (Z_le_gt_dec (Zpos (digits2_pos p)) k) as [|G]; [assumption|].
  assert (2 ^ k <= 2 ^ (Zpos (digits2_pos p) - 1))%Z
    by (apply Z.pow_le_mono_r; lia).
  lia.
Qed.

(** The float32 value of a positive count below 2^24: the count itself,
    its mantissa shifted to 24 bits. *)
Lemma f32_of_Z_pos (p : positive) :
  (Zpos p < 2 ^ 24)%Z ->
  f32_of_Z (Zpos p)
  = S754_finite false (shl p (24 - Zpos (digits2_pos p)))
                (Zpos (digits2_pos p) - 24).
Proof.
  intros H. pose proof (digits2_bound p 24 ltac:(lia) H) as D.
  unfold f32_of_Z, binary_normalize.
  rewrite binary_round_exact; unfold emin; try lia.
  f_equal; lia.
Qed.

Lemma digits2_shl (m : positive) (k : Z) :
  (0 <= k)%Z -> Zpos (digits2_pos (shl m k)) = (Zpos (digits2_pos m) + k)%Z.
Proof.
  intros H. destruct k as [|k|k]; simpl; [lia| |lia].
  apply digits2_iter_xO.
Qed.

Lemma f64_of_f32_count (p : positive) :
  (Zpos p < 2 ^ 24)%Z ->
  exists m e, f64_of_f32 (f32_of_Z (Zpos p)) = S754_finite false m e.
Proof.
  intros H. pose proof (digits2_bound p 24 ltac:(lia) H) as D.
  rewrite (f32_of_Z_pos p H). cbn [f64_of_f32].
  eexists. eexists. apply binary_round_exact; rewrite digits2_shl by lia;
    unfold emin; lia.
Qed.

Lemma f64_div_not_nan (x : float) (my : positive) (ey : Z) :
  x <> S754_nan -> f64_div x (S754_finite false my ey) <> S754_nan.
Proof.
  intros Hx. unfold f64_div, SFdiv. destruct x as [sx|sx| |sx mx ex];
    try discriminate; [congruence|].
  unfold SFdiv_core_binary.
  set (m' := match (ex - ey - _)%Z with Z.pos _ => _ | Z0 => _ | Z.neg _ => _ end).
  assert (Hm : (0 <= m')%Z).
  { subst m'. destruct (ex - ey - _)%Z; try lia. apply Z.shiftl_nonneg. lia. }
  pose proof (Z.div_pos m' (Zpos my) Hm ltac:(lia)) as Hq.
  unfold Z.div in Hq. destruct (Z.div_eucl m' (Zpos my)) as [q r]. simpl in Hq.
  apply binary_round_aux_not_nan. exact Hq.
Qed.

Lemma shl_inj (p q : positive) (k : Z) : shl p k = shl q k -> p = q.
Proof.
  destruct k as [|k|k]; simpl; auto.
  induction k as [|k IH] using Pos.peano_ind; simpl.
  - intros H. injection H. auto.
  - rewrite !Pos.iter_succ. intros H. injection H. auto.
Qed.

(** Below 2^24 the float32 count is exact: different counts give
    different values. *)
Lemma f32_of_Z_inj (a b : Z) :
  (0 <= a < 2 ^ 24)%Z -> (0 <= b < 2 ^ 24)%Z ->
  f32_of_Z a = f32_of_Z b -> a = b.
Proof.
  intros Ha Hb. destruct a as [|p|p]; destruct b as [|q|q]; try lia.
  - rewrite (f32_of_Z_pos q) by lia. discriminate.
  - rewrite (f32_of_Z_pos p) by lia. discriminate.
  - rewrite (f32_of_Z_pos p), (f32_of_Z_pos q) by lia.
    intros H.
    pose proof (f_equal (fun f => match f with
                                  | S754_finite _ _ e => e
                                  | _ => 0%Z
                                  end) H) as He.
    pose proof (f_equal (fun f => match f with
                                  | S754_finite _ m _ => m
                                  | _ => xH
                                  end) H) as Hm.
    cbv beta iota in He, Hm.
    assert (Hd : Zpos (digits2_pos p) = Zpos (digits2_pos q)) by lia.
    rewrite Hd in Hm. apply shl_inj in Hm. congruence.
Qed.

Lemma f32_of_Z_zero_iff (d : Z) :
  (0 <= d < 2 ^ 24)%Z -> (f32_of_Z d = fzero <-> d = 0%Z).
Proof.
  intros H. split.
  - intros E. apply (f32_of_Z_inj d 0); [exact H | lia | exact E].
  - intros ->. reflexivity.
Qed.

(** A count divided by the float32 count of observations is NaN exactly
    when there is no observation. *)
Lemma int_div_f32_nan_iff (n d : Z) :
  (0 <= n <= d)%Z -> (d < 2 ^ 24)%Z ->
  (int_div_f32 n (f32_of_Z d) = nan <-> d = 0%Z).
Proof.
  intros Hn Hd. split.
  - intros E. destruct d as [|p|p]; [reflexivity| |lia].
    exfalso. destruct (f64_of_f32_count p Hd) as (m & e & Hf).
    unfold int_div_f32 in E. rewrite Hf in E.
    apply (f64_div_not_nan (f64_of_Z n) m e); [|exact E].
    apply f64_of_Z_not_nan. lia.
  - intros ->. assert (n = 0%Z) by lia. subst n. reflexivity.
Qed.

Lemma count_true_bounds (l : list bool) :
  (0 <= count_true l <= Z.of_nat (length l))%Z.
Proof.
  induction l as [|b l IH]; [simpl; lia|].
  rewrite count_true_cons. cbn [length]. destruct b; simpl Z.b2z; lia.
Qed.

Lemma count_true_zip_andb_le (a b : list bool) :
  (0 <= count_true (zip_with andb a b) <= count_true b)%Z.
Proof.
  revert b. induction a as [|x a IH]; intros [|y b]; cbn [zip_with].
  - simpl. lia.
  - pose proof (count_true_bounds (y :: b)) as H. change (count_true []) with 0%Z. lia.
  - simpl. lia.
  - rewrite !count_true_cons. specialize (IH b).
    destruct x, y; simpl Z.b2z; lia.
Qed.

(* ================================================================== *)
(** ** Observed and unobserved pixels *)

Section ObservedPixels.

Variable s : DataArray4 Z.
Hypothesis stack_shape : well_shaped s = true.

(** Fewer than 2^24 timesteps: every count along time is a float32
    value. *)
Hypothesis stack_time_bound : (Z.of_nat (length (time4 s)) < 2 ^ 24)%Z.

(** A ratio of lines 133 to 149 at one pixel, for any boolean array [m]
    of the shape of the SCL cube. *)
Lemma body_ratio_at (mv : option (list Z)) (e d : option nat) (r : option float)
      (l : scl_locals) (m : cube bool) (y x : nat) :
  preprocess_scl_body s mv e d r = Ok l ->
  y < length (y4 s) -> x < length (x4 s) ->
  is_cubeb (length (time4 s)) (length (y4 s)) (length (x4 s)) m = true ->
  let codes := pixel_series 0%Z (values3 (l_scl_data l)) y x in
  length codes = length (time4 s) /\
  get2 (l_obs l) y x = Some (f32_of_Z (obs_count codes)) /\
  get2 (ratio (length (y4 s)) (length (x4 s))
              (zip_with3 andb m (l_ts_obs l)) (l_obs l)) y x
  = Some (int_div_f32
            (count_true (zip_with andb (pixel_series false m y x)
                                  (map observed codes)))
            (f32_of_Z (obs_count codes))).
Proof.
  intros Hl Hy Hx Hm.
  destruct (body_inv _ _ _ _ _ _ Hl)
    as (re & rd & _ & _ & Hsel & _ & _ & Hts & Hobs & _).
  pose proof (sel_band_shape _ _ _ stack_shape Hsel) as Hc.
  destruct (sel_band_inv _ _ _ Hsel) as (i & _ & _ & Et & _ & Ey & Ex & _).
  rewrite Et, Ey, Ex in *. cbv zeta.
  set (T := length (time4 s)) in *. set (Y := length (y4 s)) in *.
  set (X := length (x4 s)) in *.
  set (codes := values3 (l_scl_data l)) in *.
  assert (HP : forall p, In p codes -> is_planeb Y X p = true)
    by (intros p Hp; apply (is_cubeb_planes T Y X codes p Hc Hp)).
  assert (Hs : is_cubeb T Y X (l_ts_obs l) = true)
    by (rewrite Hts; auto with shapes).
  assert (Es : pixel_series false (l_ts_obs l) y x
               = map observed (pixel_series 0%Z codes y x)).
  { rewrite Hts. apply (pixel_series_map3 observed 0%Z false Y X codes y x HP Hy Hx). }
  assert (Eo : get2 (l_obs l) y x
               = Some (f32_of_Z (obs_count (pixel_series 0%Z codes y x)))).
  { rewrite Hobs, get2_map2, (get2_sum_axis0 Y X _ y x); auto.
    - rewrite Es. reflexivity.
    - intros p Hp. apply (is_cubeb_planes T Y X _ p Hs Hp). }
  split; [|split; [exact Eo|]].
  - unfold pixel_series. rewrite length_map.
    apply is_cubeb_true in Hc. tauto.
  - rewrite (get2_ratio T Y X _ _ y x _ (is_cubeb_zip_with3 andb T Y X _ _ Hm Hs)
                        Hy Hx Eo).
    rewrite (pixel_series_zip_with3 andb false false false Y X y x m (l_ts_obs l)),
            Es; auto.
    + intros p Hp. apply (is_cubeb_planes T Y X m p Hm Hp).
    + intros p Hp. apply (is_cubeb_planes T Y X _ p Hs Hp).
Qed.

(** The six ratio bands are ratios of arrays of the shape of the cube. *)
Lemma body_ratio_bands (mv : option (list Z)) (e d : option nat) (r : option float)
      (l : scl_locals) (band : plane float) :
  preprocess_scl_body s mv e d r = Ok l -> In band (ratio_bands l) ->
  exists m,
    is_cubeb (length (time4 s)) (length (y4 s)) (length (x4 s)) m = true /\
    band = ratio (length (y4 s)) (length (x4 s))
                 (zip_with3 andb m (l_ts_obs l)) (l_obs l).
Proof.
  intros Hl Hb.
  destruct (body_inv _ _ _ _ _ _ Hl)
    as (re & rd & _ & _ & Hsel & _ & Hi & Hts & Hobs & Hib & Hsn & Hwa & Hve
        & Hnv & Hm & Hia & _ & _).
  pose proof (sel_band_shape _ _ _ stack_shape Hsel) as Hc.
  destruct (sel_band_inv _ _ _ Hsel) as (i & _ & _ & Et & _ & Ey & Ex & _).
  rewrite Et, Ey, Ex in *.
  assert (Hisin : is_cubeb (length (time4 s)) (length (y4 s)) (length (x4 s))
                           (l_isin l) = true)
    by (rewrite Hi; unfold isin; auto with shapes).
  assert (Hmorph : is_cubeb (length (time4 s)) (length (y4 s)) (length (x4 s))
                            (l_morph l) = true)
    by (rewrite Hm; auto with shapes).
  unfold ratio_bands in Hb. cbn [In] in Hb.
  destruct Hb as [<-|[<-|[<-|[<-|[<-|[<-|[]]]]]]];
    eexists; (split; [|eassumption]); auto with shapes.
Qed.

(** X5: when lines 120 to 161 run through on a stack of fewer than 2^24
    timesteps, at every pixel, each of the six ratios is NaN exactly when
    the pixel is observed at no timestep of the stack's SCL band, and
    [l2a_obs] is 0 exactly then: a NaN ratio and a zero count are one and
    the same mark of a pixel never observed. *)
Theorem ratio_nan_iff_unobserved (mv : option (list Z)) (e d : option nat)
        (r : option float) (l : scl_locals) (y x : nat) :
  preprocess_scl_body s mv e d r = Ok l ->
  y < length (y4 s) -> x < length (x4 s) ->
  sel_band s "SCL" = Ok (l_scl_data l) /\
  let codes := pixel_series 0%Z (values3 (l_scl_data l)) y x in
  (get2 (l_obs l) y x = Some fzero <-> obs_count codes = 0%Z) /\
  forall band, In band (ratio_bands l) ->
    exists v, get2 band y x = Some v /\ (v = nan <-> obs_count codes = 0%Z).
Proof.
  intros Hl Hy Hx.
  split.
  { destruct (body_inv _ _ _ _ _ _ Hl) as (re & rd & _ & _ & Hsel & _). exact Hsel. }
  cbv zeta.
  set (codes := pixel_series 0%Z (values3 (l_scl_data l)) y x).
  assert (Hlen : length codes = length (time4 s) /\
                 get2 (l_obs l) y x = Some (f32_of_Z (obs_count codes))).
  { destruct (body_ratio_bands _ _ _ _ _ _ Hl (or_introl eq_refl)) as (m & Hm & _).
    destruct (body_ratio_at _ _ _ _ _ m y x Hl Hy Hx Hm) as (H1 & H2 & _).
    split; assumption. }
  destruct Hlen as [Hlen Hobs].
  assert (Hcount : (0 <= obs_count codes < 2 ^ 24)%Z).
  { unfold obs_count. pose proof (count_true_bounds (map observed codes)) as B.
    rewrite length_map, Hlen in B. lia. }
  split.
  - rewrite Hobs. split.
    + intros E. injection E as E. apply (f32_of_Z_zero_iff _ Hcount). exact E.
    + intros E. rewrite E. reflexivity.
  - intros band Hb.
    destruct (body_ratio_bands _ _ _ _ _ _ Hl Hb) as (m & Hm & ->).
    destruct (body_ratio_at _ _ _ _ _ m y x Hl Hy Hx Hm) as (_ & _ & H3).
    fold codes in H3. eexists. split; [exact H3|].
    apply int_div_f32_nan_iff; [|lia].
    apply count_true_zip_andb_le.
Qed.

(** X6: when lines 120 to 161 run through on a stack of fewer than 2^24
    timesteps, [l2a_obs] is the exact count over the stack's SCL band: two
    pixels with the same [l2a_obs] are observed at the same number of
    timesteps. *)
Theorem l2a_obs_exact (mv : option (list Z)) (e d : option nat) (r : option float)
        (l : scl_locals) (y x y' x' : nat) :
  preprocess_scl_body s mv e d r = Ok l ->
  y < length (y4 s) -> x < length (x4 s) ->
  y' < length (y4 s) -> x' < length (x4 s) ->
  sel_band s "SCL" = Ok (l_scl_data l) /\
  get2 (l_obs l) y x
    = Some (f32_of_Z (obs_count (pixel_series 0%Z (values3 (l_scl_data l)) y x))) /\
  (get2 (l_obs l) y x = get2 (l_obs l) y' x' ->
   obs_count (pixel_series 0%Z (values3 (l_scl_data l)) y x)
   = obs_count (pixel_series 0%Z (values3 (l_scl_data l)) y' x')).
Proof.
  intros Hl Hy Hx Hy' Hx'.
  split.
  { destruct (body_inv _ _ _ _ _ _ Hl) as (re & rd & _ & _ & Hsel & _). exact Hsel. }
  destruct (body_ratio_bands _ _ _ _ _ _ Hl (or_introl eq_refl)) as (m & Hm & _).
  destruct (body_ratio_at _ _ _ _ _ m y x Hl Hy Hx Hm) as (L1 & O1 & _).
  destruct (body_ratio_at _ _ _ _ _ m y' x' Hl Hy' Hx' Hm) as (L2 & O2 & _).
  cbv zeta in *. split; [exact O1|].
  rewrite O1, O2. intros E. injection E as E.
  apply f32_of_Z_inj; [| |exact E]; unfold obs_count.
  - pose proof (count_true_bounds
                  (map observed (pixel_series 0%Z (values3 (l_scl_data l)) y x))) as B.
    rewrite length_map, L1 in B. lia.
  - pose proof (count_true_bounds
                  (map observed (pixel_series 0%Z (values3 (l_scl_data l)) y' x'))) as B.
    rewrite length_map, L2 in B. lia.
Qed.

(** X7: the override never fires at a pixel observed at no timestep of
    the stack's SCL band: its ratio is NaN and [NaN > max_invalid_ratio] is
    False, so when lines 120 to 161 run through without and with a
    threshold, at such a pixel the mask with the threshold is the mask
    without one. *)
Theorem unobserved_pixel_ignores_threshold (mv : option (list Z)) (e d : option nat)
        (r : float) (l0 l1 : scl_locals) (y x : nat) :
  preprocess_scl_body s mv e d None = Ok l0 ->
  preprocess_scl_body s mv e d (Some r) = Ok l1 ->
  y < length (y4 s) -> x < length (x4 s) ->
  Forall (fun c => c = 0%Z) (pixel_series 0%Z (values3 (l_scl_data l0)) y x) ->
  sel_band s "SCL" = Ok (l_scl_data l0) /\
  get2 (l_invalid_after l0) y x = Some nan /\
  forall t, get4 (values4 (l_mask l1)) t 0 y x
            = get4 (values4 (l_mask l0)) t 0 y x.
Proof.
  intros H0 H1 Hy Hx Hz.
  split.
  { destruct (body_inv _ _ _ _ _ _ H0) as (re & rd & _ & _ & Hsel & _). exact Hsel. }
  destruct (body_threshold_locals _ _ _ _ _ _ _ H0 H1)
    as (Esd & _ & _ & _ & _ & _ & _ & _ & _ & Em & Eia).
  assert (Hnan : get2 (l_invalid_after l0) y x = Some nan).
  { assert (Hb : In (l_invalid_after l0) (ratio_bands l0))
      by (unfold ratio_bands; cbn [In]; auto).
    destruct (body_ratio_bands _ _ _ _ _ _ H0 Hb) as (m & Hm & E).
    destruct (body_ratio_at _ _ _ _ _ m y x H0 Hy Hx Hm) as (_ & _ & H3).
    cbv zeta in H3. rewrite E, H3.
    destruct (unobserved_counts _ Hz) as (Z1 & _ & Z3).
    rewrite Z1, Z3. reflexivity. }
  split; [exact Hnan|]. intros t.
  destruct (body_inv _ _ _ _ _ _ H0)
    as (a & b & _ & _ & _ & _ & _ & _ & _ & _ & _ & _ & _ & _ & _ & _ & _ & Hk0).
  destruct (body_inv _ _ _ _ _ _ H1)
    as (a' & b' & _ & _ & _ & _ & _ & _ & _ & _ & _ & _ & _ & _ & _ & _ & _ & Hk1).
  rewrite Hk0, Hk1, Em, Eia. cbn [values4 final_mask].
  rewrite !get4_expand, get3_zip_with3.
  destruct (get3 (map3 negb (l_morph l0)) t y x) as [b0|] eqn:E0; [|reflexivity].
  assert (Ht : t < length (l_morph l0)).
  { unfold get3, map3 in E0. rewrite nth_error_map in E0.
    destruct (nth_error (l_morph l0) t) eqn:E; [|discriminate].
    apply nth_error_Some. congruence. }
  rewrite get3_broadcast, get2_map2, Hnan by exact Ht.
  simpl. unfold f_gt, SFltb. destruct r; simpl; rewrite orb_false_r; reflexivity.
Qed.

End ObservedPixels.

(* ================================================================== *)
(** ** Disks and the order of erosion and dilation *)

Lemma in_mapi_from_iff {A B : Type} (f : nat -> A -> B) (l : list A) (i : nat) (b : B) :
  In b (mapi_from f i l) <-> exists n a, nth_error l n = Some a /\ b = f (i + n) a.
Proof.
  revert i. induction l as [|a l IH]; intros i; simpl.
  - split; [tauto|]. intros (n & a & H & _). destruct n; discriminate.
  - rewrite IH. split.
    + intros [H | (n & a' & Hn & E)].
      * exists 0, a. rewrite Nat.add_0_r. auto.
      * exists (S n), a'. replace (i + S n) with (S i + n) by lia. auto.
    + intros (n & a' & Hn & E). destruct n as [|n]; simpl in Hn.
      * injection Hn as <-. rewrite Nat.add_0_r in E. auto.
      * right. exists n, a'. replace (S i + n) with (i + S n) by lia. auto.
Qed.

Lemma in_mapi_iff {A B : Type} (f : nat -> A -> B) (l : list A) (b : B) :
  In b (mapi f l) <-> exists n a, nth_error l n = Some a /\ b = f n a.
Proof. unfold mapi. apply in_mapi_from_iff. Qed.

(** The offsets of a footprint are the positions of its set cells,
    counted from the centre. *)
Lemma in_footprint_offsets (fp : plane bool) (dy dx : Z) :
  In (dy, dx) (footprint_offsets fp) <->
  exists i j row,
    nth_error fp i = Some row /\ nth_error row j = Some true /\
    dy = (Z.of_nat i - Z.of_nat (length fp / 2))%Z /\
    dx = (Z.of_nat j - Z.of_nat (length row / 2))%Z.
Proof.
  unfold footprint_offsets. rewrite in_concat. split.
  - intros (os & Hos & Hin). apply in_mapi_iff in Hos.
    destruct Hos as (i & row & Hrow & ->). apply in_concat in Hin.
    destruct Hin as (o & Ho & Hin). apply in_mapi_iff in Ho.
    destruct Ho as (j & b & Hb & ->). destruct b; [|contradiction].
    destruct Hin as [E|[]]. injection E as <- <-.
    exists i, j, row. auto.
  - intros (i & j & row & Hrow & Hb & -> & ->).
    eexists. split.
    + apply in_mapi_iff. exists i, row. split; [exact Hrow | reflexivity].
    + apply in_concat. eexists. split.
      * apply in_mapi_iff. exists j, true. split; [exact Hb | reflexivity].
      * left. reflexivity.
Qed.

Lemma disk_side (r : nat) : (2 * r + 1) / 2 = r.
Proof.
  replace (2 * r + 1) with (r * 2 + 1) by lia.
  rewrite Nat.div_add_l by lia. simpl. lia.
Qed.

Lemma nth_error_disk_axis (r i : nat) :
  nth_error (map (fun k => (Z.of_nat k - Z.of_nat r)%Z) (seq 0 (2 * r + 1))) i
  = if i <? 2 * r + 1 then Some (Z.of_nat i - Z.of_nat r)%Z else None.
Proof.
  rewrite nth_error_map, nth_error_seq. destruct (i <? 2 * r + 1); reflexivity.
Qed.

(** A disk of radius [r] is the set of the offsets at distance at most
    [r] from the centre. *)
Lemma in_disk_offsets (r : nat) (dy dx : Z) :
  In (dy, dx) (footprint_offsets (disk r)) <->
  (dx * dx + dy * dy <= Z.of_nat r * Z.of_nat r)%Z.
Proof.
  rewrite in_footprint_offsets. unfold disk. cbv zeta.
  set (L := map (fun k => (Z.of_nat k - Z.of_nat r)%Z) (seq 0 (2 * r + 1))).
  assert (HL : length L = 2 * r + 1)
    by (subst L; rewrite length_map, length_seq; reflexivity).
  split.
  - intros (i & j & row & Hrow & Hb & -> & ->).
    rewrite nth_error_map in Hrow. subst L. rewrite nth_error_disk_axis in Hrow.
    destruct (i <? 2 * r + 1) eqn:Ei; [|discriminate].
    cbn [option_map] in Hrow. injection Hrow as <-.
    rewrite nth_error_map, nth_error_disk_axis in Hb.
    destruct (j <? 2 * r + 1) eqn:Ej; [|discriminate].
    cbn [option_map] in Hb. injection Hb as Hb. apply Z.leb_le in Hb.
    rewrite !length_map, !length_seq.
    change (r + (r + 0) + 1) with (2 * r + 1). rewrite !disk_side. exact Hb.
  - intros H.
    assert (Hy : (- Z.of_nat r <= dy <= Z.of_nat r)%Z) by nia.
    assert (Hx : (- Z.of_nat r <= dx <= Z.of_nat r)%Z) by nia.
    exists (Z.to_nat (dy + Z.of_nat r)), (Z.to_nat (dx + Z.of_nat r)).
    eexists. split; [|split; [|split]].
    + rewrite nth_error_map. subst L. rewrite nth_error_disk_axis.
      replace (Z.to_nat (dy + Z.of_nat r) <? 2 * r + 1) with true
        by (symmetry; apply Nat.ltb_lt; lia).
      reflexivity.
    + rewrite nth_error_map, nth_error_disk_axis.
      replace (Z.to_nat (dx + Z.of_nat r) <? 2 * r + 1) with true
        by (symmetry; apply Nat.ltb_lt; lia).
      cbn [option_map]. f_equal. apply Z.leb_le.
      rewrite !Z2Nat.id by lia.
      replace (dx + Z.of_nat r - Z.of_nat r)%Z with dx by lia.
      replace (dy + Z.of_nat r - Z.of_nat r)%Z with dy by lia.
      exact H.
    + rewrite length_map, HL, disk_side, Z2Nat.id by lia. lia.
    + rewrite !length_map, length_seq, disk_side, Z2Nat.id by lia. lia.
Qed.

Lemma disk_has_centre (r : nat) : In (0, 0)%Z (footprint_offsets (disk r)).
Proof. apply in_disk_offsets. lia. Qed.

Lemma disk_offsets_mono (rd re : nat) (o : Z * Z) :
  rd <= re -> In o (footprint_offsets (disk rd)) -> In o (footprint_offsets (disk re)).
Proof.
  intros H. destruct o as [dy dx]. rewrite !in_disk_offsets. nia.
Qed.

Lemma pixel_or_border_true (m : plane bool) (y x : Z) :
  pixel_or_border m y x = true ->
  (0 <= y)%Z /\ (0 <= x)%Z /\ get2 m (Z.to_nat y) (Z.to_nat x) = Some true.
Proof.
  unfold pixel_or_border. intros H.
  destruct ((0 <=? y)%Z && (0 <=? x)%Z) eqn:E; [|discriminate].
  apply andb_true_iff in E. destruct E as [Ey Ex].
  apply Z.leb_le in Ey. apply Z.leb_le in Ex.
  destruct (get2 m (Z.to_nat y) (Z.to_nat x)) as [[|]|]; try discriminate. auto.
Qed.

(** Dilating by a footprint that holds the centre keeps what is set. *)
Lemma dilation_extensive (m fp : plane bool) (y x : nat) :
  In (0, 0)%Z (footprint_offsets fp) ->
  get2 m y x = Some true -> get2 (binary_dilation m fp) y x = Some true.
Proof.
  intros Hc H. unfold binary_dilation. rewrite get2_mapi2, H. simpl. f_equal.
  apply existsb_exists. exists (0, 0)%Z. split; [exact Hc|].
  cbn [fst snd]. rewrite !Z.sub_0_r. apply (pixel_or_border_inside m y x true H).
Qed.

(** Eroding by one footprint and dilating by a part of it sets nothing
    that was not set. *)
Lemma opening_anti_extensive (m fe fd : plane bool) (y x : nat) :
  (forall o, In o (footprint_offsets fd) -> In o (footprint_offsets fe)) ->
  get2 (binary_dilation (binary_erosion m fe) fd) y x = Some true ->
  get2 m y x = Some true.
Proof.
  intros Hsub H. unfold binary_dilation in H. rewrite get2_mapi2 in H.
  destruct (get2 (binary_erosion m fe) y x) as [b|] eqn:Eb; [|discriminate].
  simpl in H. injection H as H. apply existsb_exists in H.
  destruct H as ([dy dx] & Ho & Hp). cbn [fst snd] in Hp.
  apply pixel_or_border_true in Hp. destruct Hp as (Hy & Hx & Hp).
  unfold binary_erosion in Hp, Eb. rewrite get2_mapi2 in Hp, Eb.
  destruct (get2 m y x) as [a|] eqn:Ea; [|discriminate].
  destruct (get2 m (Z.to_nat (Z.of_nat y - dy)) (Z.to_nat (Z.of_nat x - dx)));
    [|discriminate].
  simpl in Hp. injection Hp as Hp. rewrite forallb_forall in Hp.
  specialize (Hp (dy, dx) (Hsub _ Ho)). cbn [fst snd] in Hp.
  rewrite !Z2Nat.id in Hp by lia.
  replace (Z.of_nat y - dy + dy)%Z with (Z.of_nat y) in Hp by lia.
  replace (Z.of_nat x - dx + dx)%Z with (Z.of_nat x) in Hp by lia.
  rewrite (pixel_or_border_inside m y x a Ea) in Hp. congruence.
Qed.

Lemma get3_map_plane {A B : Type} (g : plane A -> plane B) (c : cube A) (t y x : nat) :
  get3 (map g c) t y x
  = match nth_error c t with
    | Some p => get2 (g p) y x
    | None => None
    end.
Proof. unfold get3. rewrite nth_error_map. destruct (nth_error c t); reflexivity. Qed.

(** X8: when the dilation radius is at most the erosion radius, the
    morphology marks no pixel-time invalid that the codes did not: what is
    set after line 146 was set at line 123, and without a threshold every
    pixel-time whose code is outside the mask-value set is True in the
    mask. *)
Theorem morphology_never_adds (s : DataArray4 Z) (mv : option (list Z))
        (re rd : nat) (r : option float) (l : scl_locals) :
  rd <= re ->
  preprocess_scl_body s mv (Some re) (Some rd) r = Ok l ->
  (forall t y x, get3 (l_morph l) t y x = Some true ->
                 get3 (l_isin l) t y x = Some true) /\
  (r = None ->
   forall t y x c, get3 (values3 (l_scl_data l)) t y x = Some c ->
                   in_mask_values c = false ->
                   get4 (values4 (l_mask l)) t 0 y x = Some true).
Proof.
  intros Hr Hl. destruct (body_inv _ _ _ _ _ _ Hl)
    as (re' & rd' & Ee & Ed & _ & _ & Hi & _ & _ & _ & _ & _ & _ & _ & Hm & _ & _ & Hk).
  injection Ee as <-. injection Ed as <-.
  assert (Hsub : forall t y x, get3 (l_morph l) t y x = Some true ->
                               get3 (l_isin l) t y x = Some true).
  { intros t y x H. rewrite Hm, get3_map_plane in H. unfold get3.
    destruct (nth_error (l_isin l) t) as [p|]; [|discriminate].
    unfold open_plane in H.
    apply (opening_anti_extensive p (disk re) (disk rd) y x); [|exact H].
    intros o. apply disk_offsets_mono. exact Hr. }
  split; [exact Hsub|]. intros -> t y x c Hc Hn.
  assert (Ei : get3 (l_isin l) t y x = Some false)
    by (rewrite Hi; unfold isin; rewrite get3_map3, Hc; cbn [option_map];
        f_equal; exact Hn).
  rewrite Hk. cbn [values4 final_mask]. rewrite get4_expand, get3_map3.
  destruct (get3 (l_morph l) t y x) as [[|]|] eqn:Em.
  - rewrite (Hsub t y x Em) in Ei. discriminate.
  - reflexivity.
  - exfalso. rewrite Hm, get3_map_plane in Em. unfold get3 in Ei.
    destruct (nth_error (l_isin l) t) as [p|]; [|discriminate].
    unfold open_plane, binary_dilation, binary_erosion in Em.
    rewrite !get2_mapi2, Ei in Em. discriminate.
Qed.

(** X9: with erosion radius 0, the morphology clears no pixel-time: what
    is set at line 123 is set after line 146, and without a threshold
    every pixel-time whose code in the stack's SCL band is in the
    mask-value set is False in the mask, for every dilation radius. *)
Theorem no_erosion_keeps_invalid (s : DataArray4 Z) (mv : option (list Z))
        (rd : nat) (r : option float) (l : scl_locals) :
  preprocess_scl_body s mv (Some 0) (Some rd) r = Ok l ->
  sel_band s "SCL" = Ok (l_scl_data l) /\
  (forall t y x, get3 (l_isin l) t y x = Some true ->
                 get3 (l_morph l) t y x = Some true) /\
  (r = None ->
   (forall t y x c, get3 (values3 (l_scl_data l)) t y x = Some c ->
                    in_mask_values c = true ->
                    get4 (values4 (l_mask l)) t 0 y x = Some false) /\
   (forall i t y x c, index_of "SCL" (band4 s) = Some i ->
                      get4 (values4 s) t i y x = Some c ->
                      in_mask_values c = true ->
                      get4 (values4 (l_mask l)) t 0 y x = Some false)).
Proof.
  intros Hl. destruct (body_inv _ _ _ _ _ _ Hl)
    as (re' & rd' & Ee & Ed & Hsel & _ & Hi & _ & _ & _ & _ & _ & _ & _ & Hm & _ & _ & Hk).
  injection Ee as <-. injection Ed as <-.
  assert (Hsup : forall t y x, get3 (l_isin l) t y x = Some true ->
                               get3 (l_morph l) t y x = Some true).
  { intros t y x H. rewrite Hm, get3_map_plane. unfold get3 in H.
    destruct (nth_error (l_isin l) t) as [p|]; [|discriminate].
    unfold open_plane. rewrite binary_erosion_disk_0.
    apply dilation_extensive; [apply disk_has_centre | exact H]. }
  split; [exact Hsel|]. split; [exact Hsup|]. intros ->.
  assert (Hgen : forall t y x c, get3 (values3 (l_scl_data l)) t y x = Some c ->
                   in_mask_values c = true ->
                   get4 (values4 (l_mask l)) t 0 y x = Some false).
  { intros t y x c Hc Hn.
    assert (Ei : get3 (l_isin l) t y x = Some true)
      by (rewrite Hi; unfold isin; rewrite get3_map3, Hc; cbn [option_map];
          f_equal; exact Hn).
    rewrite Hk. cbn [values4 final_mask].
    rewrite get4_expand, get3_map3, (Hsup t y x Ei). reflexivity. }
  split; [exact Hgen|].
  intros i t y x c Hidx Hc. apply Hgen.
  destruct (sel_band_inv _ _ _ Hsel) as (i' & Hidx' & Hv & _).
  rewrite Hidx in Hidx'. injection Hidx' as <-.
  rewrite Hv, get3_sel_band. exact Hc.
Qed.

(** X10: erosion treats what lies outside the tile as not set, so an
    erosion radius of at least 1 clears the four edges of the tile at
    every timestep; with dilation radius 0 and no threshold the mask is
    True all along the rim of the tile, whatever the codes there. *)
Theorem erosion_clears_tile_edge (s : DataArray4 Z) (mv : option (list Z))
        (re : nat) (l : scl_locals) :
  well_shaped s = true -> 1 <= re ->
  preprocess_scl_body s mv (Some re) (Some 0) None = Ok l ->
  forall t y x c,
    y = 0 \/ x = 0 \/ S y = length (y4 s) \/ S x = length (x4 s) ->
    get3 (values3 (l_scl_data l)) t y x = Some c ->
    get3 (l_morph l) t y x = Some false /\
    get4 (values4 (l_mask l)) t 0 y x = Some true.
Proof.
  intros W Hr Hl t y x c Hedge Hc. destruct (body_inv _ _ _ _ _ _ Hl)
    as (re' & rd' & Ee & Ed & Hsel & _ & Hi & _ & _ & _ & _ & _ & _ & _ & Hm & _ & _ & Hk).
  injection Ee as <-. injection Ed as <-.
  pose proof (sel_band_shape _ _ _ W Hsel) as Hshape.
  destruct (sel_band_inv _ _ _ Hsel) as (i & _ & _ & _ & _ & Ey & Ex & _).
  rewrite Ey, Ex in Hshape.
  assert (Em : get3 (l_morph l) t y x = Some false).
  { rewrite Hm, get3_map_plane.
    assert (Ei : get3 (l_isin l) t y x = Some (in_mask_values c))
      by (rewrite Hi; unfold isin; rewrite get3_map3, Hc; reflexivity).
    assert (Hs : is_cubeb (length (time3 (l_scl_data l))) (length (y4 s))
                          (length (x4 s)) (l_isin l) = true)
      by (rewrite Hi; unfold isin; auto with shapes).
    unfold get3 in Ei. destruct (nth_error (l_isin l) t) as [p|] eqn:Ep; [|discriminate].
    pose proof (is_cubeb_planes _ _ _ _ p Hs (nth_error_In _ _ Ep)) as Hp.
    apply is_planeb_true in Hp. destruct Hp as [HY HX].
    unfold open_plane. rewrite binary_dilation_disk_0.
    unfold binary_erosion. rewrite get2_mapi2, Ei. cbn [option_map]. f_equal.
    apply not_true_is_false. intros F. rewrite forallb_forall in F.
    assert (Out : exists dy dx, In (dy, dx) (footprint_offsets (disk re)) /\
                    pixel_or_border p (Z.of_nat y + dy) (Z.of_nat x + dx) = false).
    { destruct Hedge as [-> | [-> | [Hy | Hx]]].
      - exists (-1)%Z, 0%Z. split; [apply in_disk_offsets; nia | reflexivity].
      - exists 0%Z, (-1)%Z. split; [apply in_disk_offsets; nia|].
        unfold pixel_or_border. change (Z.of_nat 0 + -1)%Z with (-1)%Z.
        change (0 <=? -1)%Z with false. rewrite andb_false_r. reflexivity.
      - exists 1%Z, 0%Z. split; [apply in_disk_offsets; nia|].
        unfold pixel_or_border, get2.
        replace (Z.to_nat (Z.of_nat y + 1)) with (S y) by lia.
        replace (nth_error p (S y)) with (@None (list bool))
          by (symmetry; apply nth_error_None; unfold plane in *; lia).
        destruct ((0 <=? Z.of_nat y + 1)%Z && (0 <=? Z.of_nat x + 0)%Z); reflexivity.
      - exists 0%Z, 1%Z. split; [apply in_disk_offsets; nia|].
        unfold pixel_or_border, get2.
        replace (Z.to_nat (Z.of_nat y + 0)) with y by lia.
        replace (Z.to_nat (Z.of_nat x + 1)) with (S x) by lia.
        unfold get2 in Ei. destruct (nth_error p y) as [row|] eqn:Erow; [|discriminate].
        replace (nth_error row (S x)) with (@None bool).
        + destruct ((0 <=? Z.of_nat y + 0)%Z && (0 <=? Z.of_nat x + 1)%Z); reflexivity.
        + symmetry. apply nth_error_None.
          rewrite (HX row (nth_error_In _ _ Erow)). lia. }
    destruct Out as (dy & dx & Hin & Hout).
    specialize (F _ Hin). cbn [fst snd] in F. congruence. }
  split; [exact Em|].
  rewrite Hk. cbn [values4 final_mask]. rewrite get4_expand, get3_map3, Em.
  reflexivity.
Qed.

(* ================================================================== *)
(** ** The accessor (extension.py) *)

Lemma last_value_Ok {A : Type} (l : list A) :
  l <> [] -> exists a, last_value l = Ok a.
Proof.
  intros H. unfold last_value. destruct (rev l) as [|a r] eqn:E; [|eauto].
  apply (f_equal (@rev A)) in E. rewrite rev_involutive in E. contradiction.
Qed.

(** X11: [bounds] raises IndexError exactly when the array has fewer than
    two x coordinates or no y coordinate, and raises nothing else; the
    accessor, whose constructor computes the bounds, cannot be built on
    such an array. *)
Theorem bounds_index_error {A : Type} (darr : DataArray4 A) :
  (bounds darr = Raise IndexError <-> length (x4 darr) < 2 \/ y4 darr = []) /\
  (forall e, bounds darr = Raise e -> e = IndexError) /\
  (ewc_init darr = Raise IndexError <-> length (x4 darr) < 2 \/ y4 darr = []).
Proof.
  assert (H : (length (x4 darr) < 2 \/ y4 darr = [] -> bounds darr = Raise IndexError)
              /\ (~ (length (x4 darr) < 2 \/ y4 darr = []) ->
                  exists b, bounds darr = Ok b)).
  { unfold bounds. destruct (x4 darr) as [|a [|b xs]] eqn:Ex.
    - split; [reflexivity|]. intros N. exfalso. apply N. left. simpl. lia.
    - split; [reflexivity|]. intros N. exfalso. apply N. left. simpl. lia.
    - cbn [value_at nth_error bind].
      destruct (last_value_Ok (a :: b :: xs)) as [xl Hxl]; [discriminate|].
      rewrite Hxl. cbn [bind].
      destruct (y4 darr) as [|y0 ys] eqn:Ey.
      + split; [reflexivity|]. intros N. exfalso. apply N. right. reflexivity.
      + destruct (last_value_Ok (y0 :: ys)) as [yl Hyl]; [discriminate|].
        rewrite Hyl. cbn [bind value_at nth_error]. split.
        * intros [F | F]; [simpl in F; lia | discriminate].
        * intros _. eauto. }
  destruct H as [H1 H2].
  assert (D : {length (x4 darr) < 2 \/ y4 darr = []}
              + {~ (length (x4 darr) < 2 \/ y4 darr = [])}).
  { destruct (lt_dec (length (x4 darr)) 2); [left; auto|].
    destruct (y4 darr); [left; auto | right; intros [F | F]; [lia | discriminate]]. }
  split; [|split].
  - split; [|exact H1]. intros E. destruct D as [D | D]; [exact D|].
    destruct (H2 D) as [b Hb]. congruence.
  - intros e E. destruct D as [D | D]; [rewrite (H1 D) in E; congruence|].
    destruct (H2 D) as [b Hb]. congruence.
  - unfold ewc_init. split.
    + intros E. destruct D as [D | D]; [exact D|].
      destruct (H2 D) as [b Hb]. rewrite Hb in E. discriminate.
    + intros D'. rewrite (H1 D'). reflexivity.
Qed.

Lemma dict_get_set_same (k : string) (v : list float) (d : attrs_t) :
  dict_get k (dict_set k v d) = Some v.
Proof.
  induction d as [|[k' v'] d IH]; simpl.
  - rewrite String.eqb_refl. reflexivity.
  - destruct (String.eqb k k') eqn:E; simpl.
    + rewrite String.eqb_refl. reflexivity.
    + rewrite E. exact IH.
Qed.

Lemma dict_get_set_other (k k0 : string) (v : list float) (d : attrs_t) :
  k0 <> k -> dict_get k0 (dict_set k v d) = dict_get k0 d.
Proof.
  intros N. apply String.eqb_neq in N.
  induction d as [|[k' v'] d IH]; simpl.
  - rewrite N. reflexivity.
  - destruct (String.eqb k k') eqn:E; simpl.
    + apply String.eqb_eq in E. subst k'. rewrite N. reflexivity.
    + destruct (String.eqb k0 k'); [reflexivity | exact IH].
Qed.

Lemma dict_set_twice (k : string) (v : list float) (d : attrs_t) :
  dict_set k v (dict_set k v d) = dict_set k v d.
Proof.
  induction d as [|[k' v'] d IH]; simpl.
  - rewrite String.eqb_refl. reflexivity.
  - destruct (String.eqb k k') eqn:E; simpl.
    + rewrite String.eqb_refl. reflexivity.
    + rewrite E, IH. reflexivity.
Qed.

Lemma bounds_by_coordinates {A B : Type} (a : DataArray4 A) (b : DataArray4 B) :
  x4 a = x4 b -> y4 a = y4 b -> bounds a = bounds b.
Proof. intros Hx Hy. unfold bounds. rewrite Hx, Hy. reflexivity. Qed.

(** X12: building the accessor stores the bounds under the key 'bounds'
    of the attributes of the array, over any earlier value of that key,
    and changes no other attribute, no coordinate and no value; building it
    again on the result changes nothing. *)
Theorem ewc_init_stores_bounds {A : Type} (darr : DataArray4 A)
        (acc : ESAWorldCoverTimeSeries A) :
  ewc_init darr = Ok acc ->
  exists b,
    bounds darr = Ok b /\
    dict_get "bounds" (attrs4 (_obj acc)) = Some (bounds_value b) /\
    (forall k, k <> "bounds"%string ->
               dict_get k (attrs4 (_obj acc)) = dict_get k (attrs4 darr)) /\
    values4 (_obj acc) = values4 darr /\ time4 (_obj acc) = time4 darr /\
    band4 (_obj acc) = band4 darr /\
    y4 (_obj acc) = y4 darr /\ x4 (_obj acc) = x4 darr /\
    bounds (_obj acc) = Ok b /\
    ewc_init (_obj acc) = Ok acc.
Proof.
  unfold ewc_init. destruct (bounds darr) as [b|] eqn:Eb; [|discriminate].
  cbn [bind]. intros E. injection E as <-. exists b. cbn [_obj attrs4 values4 time4 band4 y4 x4].
  split; [reflexivity|]. split; [apply dict_get_set_same|].
  split; [intros k Hk; apply dict_get_set_other; exact Hk|].
  repeat (split; [reflexivity|]).
  assert (Eb' : bounds (mkDataArray4 (values4 darr) (time4 darr) (band4 darr)
                          (y4 darr) (x4 darr)
                          (dict_set "bounds" (bounds_value b) (attrs4 darr))) = Ok b)
    by (rewrite <- Eb; apply bounds_by_coordinates; reflexivity).
  split; [exact Eb'|]. rewrite Eb'. cbn [bind values4 time4 band4 y4 x4 attrs4].
  rewrite dict_set_twice. reflexivity.
Qed.

(** X13: the mask of a stack on which the accessor was built carries the
    bounds of the stack in its attributes, and these are the bounds that
    the coordinates of the mask give. *)
Theorem mask_carries_bounds (s : DataArray4 Z) (acc : ESAWorldCoverTimeSeries Z)
        (mv : option (list Z)) (e d : option nat) (r : option float)
        (l : scl_locals) :
  ewc_init s = Ok acc ->
  preprocess_scl_body (_obj acc) mv e d r = Ok l ->
  exists b,
    bounds s = Ok b /\
    dict_get "bounds" (attrs4 (l_mask l)) = Some (bounds_value b) /\
    bounds (l_mask l) = Ok b.
Proof.
  intros Ha Hl. destruct (ewc_init_stores_bounds s acc Ha)
    as (b & Hb & Hget & _ & _ & _ & _ & Hy & Hx & _ & _).
  destruct (body_inv _ _ _ _ _ _ Hl)
    as (re & rd & _ & _ & Hsel & _ & _ & _ & _ & _ & _ & _ & _ & _ & _ & _ & _ & Hk).
  destruct (sel_band_inv _ _ _ Hsel) as (i & _ & _ & _ & _ & Ey & Ex & Eat).
  exists b. split; [exact Hb|]. rewrite Hk. cbn [attrs4]. rewrite Eat. split; [exact Hget|].
  rewrite <- Hb. apply bounds_by_coordinates; cbn [x4 y4]; congruence.
Qed.

(* ================================================================== *)
(** ** The order of the timesteps *)

Lemma count_true_perm (l l' : list bool) :
  Permutation l l' -> count_true l = count_true l'.
Proof.
  induction 1; rewrite ?count_true_cons; lia.
Qed.

(** Two planes of one shape with the same values are equal. *)
Lemma plane_ext {A : Type} (Y X : nat) (p q : plane A) :
  is_planeb Y X p = true -> is_planeb Y X q = true ->
  (forall y x, y < Y -> x < X -> get2 p y x = get2 q y x) -> p = q.
Proof.
  intros Hp Hq H. apply is_planeb_true in Hp. apply is_planeb_true in Hq.
  destruct Hp as [LP RP]. destruct Hq as [LQ RQ].
  apply nth_error_ext. intro y.
  destruct (nth_error p y) as [r|] eqn:Ep; destruct (nth_error q y) as [r'|] eqn:Eq.
  - f_equal. apply nth_error_ext. intro x.
    assert (Hy : y < Y) by (rewrite <- LP; apply nth_error_Some; congruence).
    pose proof (RP r (nth_error_In _ _ Ep)) as Lr.
    pose proof (RQ r' (nth_error_In _ _ Eq)) as Lr'.
    destruct (lt_dec x X) as [Hx|Hx].
    + specialize (H y x Hy Hx). unfold get2 in H. rewrite Ep, Eq in H. exact H.
    + replace (nth_error r x) with (@None A) by (symmetry; apply nth_error_None; lia).
      symmetry. apply nth_error_None. lia.
  - apply nth_error_None in Eq.
    assert (y < length p) by (apply nth_error_Some; congruence). lia.
  - apply nth_error_None in Ep.
    assert (y < length q) by (apply nth_error_Some; congruence). lia.
  - reflexivity.
Qed.

(** The sum along time does not depend on the order of the planes. *)
Lemma sum_axis0_perm (Y X : nat) (c c' : cube bool) :
  Permutation c c' -> (forall p, In p c -> is_planeb Y X p = true) ->
  sum_axis0 Y X c = sum_axis0 Y X c'.
Proof.
  intros HP Hc.
  assert (Hc' : forall p, In p c' -> is_planeb Y X p = true)
    by (intros p Hp; apply Hc; apply (Permutation_in p (Permutation_sym HP) Hp)).
  apply (plane_ext Y X); try (apply is_planeb_sum_axis0; assumption).
  intros y x Hy Hx.
  rewrite (get2_sum_axis0 Y X c y x Hc Hy Hx), (get2_sum_axis0 Y X c' y x Hc' Hy Hx).
  f_equal. apply count_true_perm. unfold pixel_series.
  apply Permutation_map. exact HP.
Qed.

Lemma combine_map_r {A B C : Type} (f : B -> C) (l : list A) (l' : list B) :
  combine l (map f l') = map (fun ab => (fst ab, f (snd ab))) (combine l l').
Proof.
  revert l'. induction l as [|a l IH]; intros [|b l']; simpl; auto.
  rewrite IH. reflexivity.
Qed.

Lemma map_snd_combine {A B : Type} (l : list A) (l' : list B) :
  length l = length l' -> map snd (combine l l') = l'.
Proof.
  revert l'. induction l as [|a l IH]; intros [|b l'] H; simpl in *; try lia; auto.
  rewrite IH by lia. reflexivity.
Qed.

(** A ratio of a per-plane mask does not depend on the order of the
    planes of codes. *)
Lemma ratio_perm (Y X : nat) (K : plane Z -> plane bool) (c c' : cube Z)
      (obs : plane float) :
  Permutation c c' ->
  (forall p, In p c -> is_planeb Y X p = true /\ is_planeb Y X (K p) = true) ->
  ratio Y X (zip_with3 andb (map K c) (map3 observed c)) obs
  = ratio Y X (zip_with3 andb (map K c') (map3 observed c')) obs.
Proof.
  intros HP Hc. unfold ratio, zip_with3, map3. rewrite !zip_with_map.
  f_equal. apply sum_axis0_perm; [apply Permutation_map; exact HP|].
  intros q Hq. apply in_map_iff in Hq. destruct Hq as (p & <- & Hp).
  destruct (Hc p Hp) as [H1 H2]. auto with shapes.
Qed.

(** X14: the statistics do not depend on the order of the timesteps, and
    the mask follows it.  For two well-shaped stacks with the same bands
    and the same y and x coordinates whose timesteps (timestamp and
    values) are a permutation of one another, [l2a_obs] and the six ratios
    are equal, and the timesteps of the two masks (timestamp and values)
    are the same permutation of one another. *)
Theorem time_order_invariance (s s' : DataArray4 Z) (mv : option (list Z))
        (e d : option nat) (r : option float) (l l' : scl_locals) :
  well_shaped s = true -> well_shaped s' = true ->
  band4 s' = band4 s -> y4 s' = y4 s -> x4 s' = x4 s ->
  Permutation (combine (time4 s) (values4 s)) (combine (time4 s') (values4 s')) ->
  preprocess_scl_body s mv e d r = Ok l ->
  preprocess_scl_body s' mv e d r = Ok l' ->
  l_obs l' = l_obs l /\
  l_invalid_before l' = l_invalid_before l /\
  l_invalid_after l' = l_invalid_after l /\
  l_cover_snow l' = l_cover_snow l /\ l_cover_water l' = l_cover_water l /\
  l_cover_veg l' = l_cover_veg l /\ l_cover_notveg l' = l_cover_notveg l /\
  Permutation (combine (time4 (l_mask l)) (values4 (l_mask l)))
              (combine (time4 (l_mask l')) (values4 (l_mask l'))).
Proof.
  intros W W' EB EY EX HP Hl Hl'.
  destruct (body_inv _ _ _ _ _ _ Hl)
    as (re & rd & Ee & Ed & Hsel & _ & Hi & Hts & Hobs & Hib & Hsn & Hwa & Hve
        & Hnv & Hm & Hia & _ & Hk).
  destruct (body_inv _ _ _ _ _ _ Hl')
    as (re' & rd' & Ee' & Ed' & Hsel' & _ & Hi' & Hts' & Hobs' & Hib' & Hsn' & Hwa'
        & Hve' & Hnv' & Hm' & Hia' & _ & Hk').
  subst e d. injection Ee' as <-. injection Ed' as <-.
  pose proof (sel_band_shape _ _ _ W Hsel) as Hc.
  pose proof (sel_band_shape _ _ _ W' Hsel') as Hc'.
  destruct (sel_band_inv _ _ _ Hsel) as (i & Hidx & Hv & Et & _ & Ey & Ex & Ea).
  destruct (sel_band_inv _ _ _ Hsel') as (i' & Hidx' & Hv' & Et' & _ & Ey' & Ex' & Ea').
  rewrite EB, Hidx in Hidx'. injection Hidx' as <-.
  rewrite Ey, Ex in *. rewrite Ey', Ex', EY, EX in *.
  set (Y := length (y4 s)) in *. set (X := length (x4 s)) in *.
  assert (Lv : length (time4 s) = length (values4 s)).
  { unfold well_shaped in W. apply is_hyperb_true in W. symmetry. tauto. }
  assert (Lv' : length (time4 s') = length (values4 s')).
  { unfold well_shaped in W'. apply is_hyperb_true in W'. symmetry. tauto. }
  assert (PV : Permutation (values4 s) (values4 s')).
  { rewrite <- (map_snd_combine (time4 s) (values4 s) Lv),
            <- (map_snd_combine (time4 s') (values4 s') Lv').
    apply Permutation_map. exact HP. }
  set (c := values3 (l_scl_data l)) in *. set (c' := values3 (l_scl_data l')) in *.
  assert (PC : Permutation c c')
    by (rewrite Hv, Hv'; apply Permutation_map; exact PV).
  assert (HS : forall p, In p c -> is_planeb Y X p = true)
    by (intros p Hp; apply (is_cubeb_planes _ Y X c p Hc Hp)).
  assert (Eobs : l_obs l' = l_obs l).
  { rewrite Hobs, Hobs', Hts, Hts'. f_equal. symmetry.
    apply sum_axis0_perm; [apply Permutation_map; exact PC|].
    intros q Hq. apply in_map_iff in Hq. destruct Hq as (p & <- & Hp).
    auto with shapes. }
  assert (R : forall K : plane Z -> plane bool,
             (forall p, is_planeb Y X p = true -> is_planeb Y X (K p) = true) ->
             ratio Y X (zip_with3 andb (map K c') (l_ts_obs l')) (l_obs l')
             = ratio Y X (zip_with3 andb (map K c) (l_ts_obs l)) (l_obs l)).
  { intros K HK. rewrite Eobs, Hts, Hts'. symmetry.
    apply ratio_perm; [exact PC|]. intros p Hp. split; auto. }
  assert (Ei : l_isin l = map (map2 in_mask_values) c) by (rewrite Hi; reflexivity).
  assert (Ei' : l_isin l' = map (map2 in_mask_values) c') by (rewrite Hi'; reflexivity).
  assert (Em : l_morph l
               = map (fun p => open_plane re rd (map2 in_mask_values p)) c)
    by (rewrite Hm, Ei, map_map; reflexivity).
  assert (Em' : l_morph l'
                = map (fun p => open_plane re rd (map2 in_mask_values p)) c')
    by (rewrite Hm', Ei', map_map; reflexivity).
  assert (Eia : l_invalid_after l' = l_invalid_after l).
  { rewrite Hia, Hia', Em, Em'. apply R. intros p Hp.
    unfold open_plane. auto with shapes. }
  split; [exact Eobs|].
  split; [rewrite Hib, Hib', Ei, Ei'; apply R; intros p Hp; auto with shapes|].
  split; [exact Eia|].
  split; [rewrite Hsn, Hsn'; apply (R (map2 _)); intros p Hp; auto with shapes|].
  split; [rewrite Hwa, Hwa'; apply (R (map2 _)); intros p Hp; auto with shapes|].
  split; [rewrite Hve, Hve'; apply (R (map2 _)); intros p Hp; auto with shapes|].
  split; [rewrite Hnv, Hnv'; apply (R (map2 _)); intros p Hp; auto with shapes|].
  rewrite Hk, Hk'. cbn [time4 values4]. rewrite Et, Et', Eia.
  rewrite !final_mask_map, Em, Em', !map_map. fold c c'. rewrite Hv, Hv', !map_map.
  rewrite !combine_map_r. apply Permutation_map. exact HP.
Qed.

(* ================================================================== *)
(** ** The further properties on the sample inputs *)

Lemma threshold_only_validates_witness :
  exists l0 l1,
    preprocess_scl_body sample_stack None (Some 0) (Some 0) None = Ok l0 /\
    preprocess_scl_body sample_stack None (Some 0) (Some 0) (Some one_half) = Ok l1 /\
    l_invalid_after l1 = l_invalid_after l0 /\
    (forall t y x b v,
        get4 (values4 (l_mask l0)) t 0 y x = Some b ->
        get2 (l_invalid_after l0) y x = Some v ->
        get4 (values4 (l_mask l1)) t 0 y x = Some (b || f_gt v one_half)) /\
    (forall t y x,
        get4 (values4 (l_mask l0)) t 0 y x = Some true ->
        get4 (values4 (l_mask l1)) t 0 y x = Some true).
Proof.
  eexists. eexists. split; [vm_compute; reflexivity|].
  split; [vm_compute; reflexivity|].
  apply (threshold_only_validates sample_stack None (Some 0) (Some 0) one_half);
    vm_compute; reflexivity.
Defined.

Lemma ratio_nan_iff_unobserved_witness :
  exists l,
    preprocess_scl_body unobserved_stack None (Some 0) (Some 0) None = Ok l /\
    sel_band unobserved_stack "SCL" = Ok (l_scl_data l) /\
    let codes := pixel_series 0%Z (values3 (l_scl_data l)) 0 0 in
    (get2 (l_obs l) 0 0 = Some fzero <-> obs_count codes = 0%Z) /\
    forall band, In band (ratio_bands l) ->
      exists v, get2 band 0 0 = Some v /\ (v = nan <-> obs_count codes = 0%Z).
Proof.
  eexists. split; [vm_compute; reflexivity|].
  refine (ratio_nan_iff_unobserved unobserved_stack _ _ None (Some 0) (Some 0) None
            _ 0 0 _ _ _).
  - reflexivity.
  - reflexivity.
  - vm_compute. reflexivity.
  - simpl. lia.
  - simpl. lia.
Defined.

Lemma l2a_obs_exact_witness :
  exists l,
    preprocess_scl_body sample_stack None (Some 0) (Some 0) None = Ok l /\
    sel_band sample_stack "SCL" = Ok (l_scl_data l) /\
    get2 (l_obs l) 0 0
      = Some (f32_of_Z (obs_count (pixel_series 0%Z (values3 (l_scl_data l)) 0 0))) /\
    (get2 (l_obs l) 0 0 = get2 (l_obs l) 1 1 ->
     obs_count (pixel_series 0%Z (values3 (l_scl_data l)) 0 0)
     = obs_count (pixel_series 0%Z (values3 (l_scl_data l)) 1 1)).
Proof.
  eexists. split; [vm_compute; reflexivity|].
  refine (l2a_obs_exact sample_stack _ _ None (Some 0) (Some 0) None
            _ 0 0 1 1 _ _ _ _ _).
  - reflexivity.
  - reflexivity.
  - vm_compute. reflexivity.
  - simpl. lia.
  - simpl. lia.
  - simpl. lia.
  - simpl. lia.
Defined.

Lemma unobserved_pixel_ignores_threshold_witness :
  exists l0 l1,
    preprocess_scl_body unobserved_stack None (Some 0) (Some 0) None = Ok l0 /\
    preprocess_scl_body unobserved_stack None (Some 0) (Some 0) (Some one_half) = Ok l1 /\
    Forall (fun c => c = 0%Z) (pixel_series 0%Z (values3 (l_scl_data l0)) 0 0) /\
    sel_band unobserved_stack "SCL" = Ok (l_scl_data l0) /\
    get2 (l_invalid_after l0) 0 0 = Some nan /\
    forall t, get4 (values4 (l_mask l1)) t 0 0 0
              = get4 (values4 (l_mask l0)) t 0 0 0.
Proof.
  eexists. eexists. split; [vm_compute; reflexivity|].
  split; [vm_compute; reflexivity|].
  split; [vm_compute; repeat constructor|].
  apply (unobserved_pixel_ignores_threshold unobserved_stack eq_refl
           None (Some 0) (Some 0) one_half).
  - vm_compute. reflexivity.
  - vm_compute. reflexivity.
  - simpl. lia.
  - simpl. lia.
  - vm_compute. repeat constructor.
Defined.

Lemma morphology_never_adds_witness :
  exists l,
    preprocess_scl_body sample_stack None (Some 2) (Some 1) None = Ok l /\
    (forall t y x, get3 (l_morph l) t y x = Some true ->
                   get3 (l_isin l) t y x = Some true) /\
    (@None float = None ->
     forall t y x c, get3 (values3 (l_scl_data l)) t y x = Some c ->
                     in_mask_values c = false ->
                     get4 (values4 (l_mask l)) t 0 y x = Some true).
Proof.
  eexists. split; [vm_compute; reflexivity|].
  apply (morphology_never_adds sample_stack None 2 1 None).
  - lia.
  - vm_compute. reflexivity.
Defined.

Lemma no_erosion_keeps_invalid_witness :
  exists l,
    preprocess_scl_body sample_stack None (Some 0) (Some 1) None = Ok l /\
    sel_band sample_stack "SCL" = Ok (l_scl_data l) /\
    (forall t y x, get3 (l_isin l) t y x = Some true ->
                   get3 (l_morph l) t y x = Some true) /\
    (@None float = None ->
     (forall t y x c, get3 (values3 (l_scl_data l)) t y x = Some c ->
                      in_mask_values c = true ->
                      get4 (values4 (l_mask l)) t 0 y x = Some false) /\
     (forall i t y x c, index_of "SCL" (band4 sample_stack) = Some i ->
                        get4 (values4 sample_stack) t i y x = Some c ->
                        in_mask_values c = true ->
                        get4 (values4 (l_mask l)) t 0 y x = Some false)).
Proof.
  eexists. split; [vm_compute; reflexivity|].
  apply (no_erosion_keeps_invalid sample_stack None 1 None).
  vm_compute. reflexivity.
Defined.

Lemma erosion_clears_tile_edge_witness :
  exists l,
    preprocess_scl_body sample_stack None (Some 1) (Some 0) None = Ok l /\
    forall t y x c,
      y = 0 \/ x = 0 \/
      S y = length (y4 sample_stack) \/ S x = length (x4 sample_stack) ->
      get3 (values3 (l_scl_data l)) t y x = Some c ->
      get3 (l_morph l) t y x = Some false /\
      get4 (values4 (l_mask l)) t 0 y x = Some true.
Proof.
  eexists. split; [vm_compute; reflexivity|].
  apply (erosion_clears_tile_edge sample_stack None 1).
  - reflexivity.
  - lia.
  - vm_compute. reflexivity.
Defined.

Lemma ewc_init_stores_bounds_witness :
  exists acc b,
    ewc_init sample_stack = Ok acc /\
    bounds sample_stack = Ok b /\
    dict_get "bounds" (attrs4 (_obj acc)) = Some (bounds_value b) /\
    ewc_init (_obj acc) = Ok acc.
Proof.
  eexists. eexists. split; [vm_compute; reflexivity|].
  match goal with
  | |- context [_obj ?a] =>
      destruct (ewc_init_stores_bounds sample_stack a)
        as (b & Hb & Hg & _ & _ & _ & _ & _ & _ & _ & Hi)
  end.
  - vm_compute. reflexivity.
  - split; [vm_compute; reflexivity|]. split; [vm_compute; reflexivity|]. exact Hi.
Defined.

Lemma mask_carries_bounds_witness :
  exists acc l b,
    ewc_init sample_stack = Ok acc /\
    preprocess_scl_body (_obj acc) None (Some 0) (Some 0) None = Ok l /\
    bounds sample_stack = Ok b /\
    dict_get "bounds" (attrs4 (l_mask l)) = Some (bounds_value b) /\
    bounds (l_mask l) = Ok b.
Proof.
  eexists. eexists. eexists. split; [vm_compute; reflexivity|].
  split; [vm_compute; reflexivity|].
  match goal with
  | |- context [l_mask ?l0] =>
      destruct (mask_carries_bounds sample_stack _ None (Some 0) (Some 0) None l0
                  ltac:(vm_compute; reflexivity) ltac:(vm_compute; reflexivity))
        as (b & Hb & Hg & Hm)
  end.
  vm_compute in Hb. injection Hb as <-.
  split; [vm_compute; reflexivity|]. split; [exact Hg | exact Hm].
Defined.

Lemma time_order_invariance_witness :
  exists l l',
    preprocess_scl_body sample_stack None (Some 1) (Some 1) (Some one_half) = Ok l /\
    preprocess_scl_body sample_stack_reordered None (Some 1) (Some 1) (Some one_half)
      = Ok l' /\
    l_obs l' = l_obs l /\
    l_invalid_before l' = l_invalid_before l /\
    l_invalid_after l' = l_invalid_after l /\
    l_cover_snow l' = l_cover_snow l /\ l_cover_water l' = l_cover_water l /\
    l_cover_veg l' = l_cover_veg l /\ l_cover_notveg l' = l_cover_notveg l /\
    Permutation (combine (time4 (l_mask l)) (values4 (l_mask l)))
                (combine (time4 (l_mask l')) (values4 (l_mask l'))).
Proof.
  eexists. eexists. split; [vm_compute; reflexivity|].
  split; [vm_compute; reflexivity|].
  apply (time_order_invariance sample_stack sample_stack_reordered None
                               (Some 1) (Some 1) (Some one_half));
    try reflexivity; try (vm_compute; reflexivity).
  unfold sample_stack, sample_stack_reordered. cbn [time4 values4 combine].
  apply (Permutation_cons_app [_] [_]). apply perm_swap.
Defined.
